(** * ASTC texture decoder wrapper (astc-decode.js): model and properties

    The JavaScript file parses the 16-byte ASTC container header, hands the
    payload to a WebAssembly module and sizes the buffer that comes back.
    The header parser is a pure function; the decoder threads the module
    instance, the global [WASM_VECTOR_LEN] and JavaScript exceptions, which
    are modelled here with a state-and-exception monad. *)

From Stdlib Require Import ZArith List String DecimalString Lia Bool.
From Stdlib.Strings Require Import Byte.
Import ListNotations.
Local Open Scope Z_scope.

(** ** JavaScript integer operators

    The bitwise operators of JavaScript work on 32-bit integers: operands go
    through ToInt32 (ToUint32 for the shift count and for [>>>]) and the
    result is a signed 32-bit value (unsigned for [>>>]). *)

Module JS.

Definition ToInt32 (z : Z) : Z := (z + 2 ^ 31) mod 2 ^ 32 - 2 ^ 31.

Definition ToUint32 (z : Z) : Z := z mod 2 ^ 32.

(** [a << n] *)
Definition shl (a n : Z) : Z :=
  ToInt32 (Z.shiftl (ToInt32 a) (Z.land (ToUint32 n) 31)).

(** [a | b] *)
Definition bor (a b : Z) : Z := ToInt32 (Z.lor (ToInt32 a) (ToInt32 b)).

(** [a >>> n] *)
Definition ushr (a n : Z) : Z :=
  Z.shiftr (ToUint32 a) (Z.land (ToUint32 n) 31).

(** [Math.min] on integers *)
Definition min (a b : Z) : Z := Z.min a b.

End JS.

(** ** Typed arrays *)

(** A [Uint8Array] is the list of its bytes. *)
Definition Uint8Array := list byte.

Definition byte_val (b : byte) : Z := Z.of_N (Byte.to_N b).

(** The inverse of [byte_val] on 0..255 (other numbers are reduced modulo
    256, as a store into a [Uint8Array] does). *)
Definition byte_of_Z (z : Z) : byte :=
  match Byte.of_N (Z.to_N (z mod 256)) with
  | Some b => b
  | None => x00
  end.

(** [data[i]] for an index inside the array. Every use below is guarded by a
    length check, so the out-of-range value ([undefined] in JavaScript) is
    never observed. *)
Definition get (data : Uint8Array) (i : nat) : Z := byte_val (nth i data x00).

Notation "d .[ i ]" := (get d i) (at level 1, left associativity, format "d .[ i ]").

(** [data.length] *)
Definition len {A} (l : list A) : Z := Z.of_nat (List.length l).

(** [Array.prototype.every((elem, index) => ...)] *)
Fixpoint every_from {A} (p : A -> nat -> bool) (index : nat) (l : list A) : bool :=
  match l with
  | [] => true
  | elem :: rest => p elem index && every_from p (S index) rest
  end.

Definition every {A} (p : A -> nat -> bool) (l : list A) : bool := every_from p 0 l.

(** A template literal [`${a}x${b}`] of two integers. *)
Definition show (z : Z) : string := NilZero.string_of_int (Z.to_int z).

Definition template_x (a b : Z) : string := (show a ++ "x" ++ show b)%string.

(** ** Exceptions *)

Inductive Error : Type :=
| HeaderTooShort (got : nat)   (* Invalid ASTC file: Header requires 16 bytes, got n *)
| InvalidMagic                 (* Invalid ASTC magic number. ... *)
| InvalidImageDimensions       (* Invalid image dimensions in ASTC header *)
| InvalidBlockDimensions       (* Invalid block dimensions in ASTC header *)
| WasmNotInitialized           (* WebAssembly module not initialized. ... *)
| NoCompressedData             (* No compressed data found after ASTC header *)
| RangeError                   (* TypedArray.prototype.set: offset is out of bounds *)
| TypeError                    (* a property read on null *)
| WasmTrap (code : Z).         (* an exception escaping an export of the module *)

Inductive Res (A : Type) : Type :=
| Ok (a : A)
| Throw (e : Error).

Arguments Ok {A} a.
Arguments Throw {A} e.

Definition is_ok {A} (r : Res A) : bool :=
  match r with Ok _ => true | Throw _ => false end.

(** ** ASTC header parser *)

Record Header : Type := mkHeader {
  blockSize : string;
  blockWidth : Z;
  blockHeight : Z;
  blockDepth : Z;
  dimensions : string;
  width : Z;
  height : Z;
  depth : Z;
  isValid : bool;
  headerSize : Z
}.

Definition parseASTCHeader (data : Uint8Array) : Res Header :=
  (* Validate minimum header length *)
  let MIN_HEADER_LENGTH := 16 in
  if len data <? MIN_HEADER_LENGTH then Throw (HeaderTooShort (List.length data)) else
  (* Validate magic number *)
  let EXPECTED_MAGIC := [0x13; 0xAB; 0xA1; 0x5C] in
  let isValidMagic := every (fun byte index => data.[index] =? byte) EXPECTED_MAGIC in
  if negb isValidMagic then Throw InvalidMagic else
  (* Extract block dimensions (bytes 4-6) *)
  let blockWidth := data.[4] in
  let blockHeight := data.[5] in
  let blockDepth := data.[6] in
  (* Extract image dimensions (bytes 7-15, 24-bit little endian) *)
  let width := JS.bor (JS.bor data.[7] (JS.shl data.[8] 8)) (JS.shl data.[9] 16) in
  let height := JS.bor (JS.bor data.[10] (JS.shl data.[11] 8)) (JS.shl data.[12] 16) in
  let depth := JS.bor (JS.bor data.[13] (JS.shl data.[14] 8)) (JS.shl data.[15] 16) in
  (* Validate extracted dimensions *)
  if (width =? 0) || (height =? 0) then Throw InvalidImageDimensions else
  if (blockWidth =? 0) || (blockHeight =? 0) then Throw InvalidBlockDimensions else
  Ok {| blockSize := template_x blockWidth blockHeight;
        blockWidth := blockWidth;
        blockHeight := blockHeight;
        blockDepth := blockDepth;
        dimensions := template_x width height;
        width := width;
        height := height;
        depth := depth;
        isValid := true;
        headerSize := MIN_HEADER_LENGTH |}.

(** The magic test of [parseASTCHeader], under the name the source gives its
    result. *)
Definition isValidMagic (data : Uint8Array) : bool :=
  every (fun byte index => data.[index] =? byte) [0x13; 0xAB; 0xA1; 0x5C].

(** ** Typed-array operations on plain arrays *)

(** The index arithmetic of [%TypedArray%.prototype.subarray(begin, end)]: a
    negative argument counts from the end, both are clamped to the array. The
    result is the first index and the length of the new view. *)
Definition subarray_bounds (srcLength relBegin relEnd : Z) : Z * Z :=
  let beginIndex :=
    if relBegin <? 0 then Z.max (srcLength + relBegin) 0 else Z.min relBegin srcLength in
  let endIndex :=
    if relEnd <? 0 then Z.max (srcLength + relEnd) 0 else Z.min relEnd srcLength in
  (beginIndex, Z.max (endIndex - beginIndex) 0).

(** The bytes seen through a view of [src]. *)
Definition window (src : list byte) (bounds : Z * Z) : list byte :=
  firstn (Z.to_nat (snd bounds)) (skipn (Z.to_nat (fst bounds)) src).

(** [a.subarray(begin, end)] *)
Definition subarray (a : Uint8Array) (relBegin relEnd : Z) : Uint8Array :=
  window a (subarray_bounds (len a) relBegin relEnd).

(** [a.subarray(begin)]: the end defaults to the length. *)
Definition subarray_from (a : Uint8Array) (relBegin : Z) : Uint8Array :=
  subarray a relBegin (len a).

(** [target.set(source, offset)]: a [RangeError] when the source does not fit,
    otherwise the bytes from [offset] on are overwritten. *)
Definition typed_set (target source : list byte) (offset : Z) : Res (list byte) :=
  if (offset <? 0) || (len target <? offset + len source) then Throw RangeError
  else Ok (firstn (Z.to_nat offset) target ++ source
           ++ skipn (Z.to_nat offset + List.length source) target).

(** The contents of a new typed array of [n] elements: [n] zero bytes. *)
Definition zeros (n : Z) : Uint8Array := repeat x00 (Z.to_nat n).

(** The largest length ToIndex accepts, 2^53 - 1. *)
Definition MAX_SAFE_INTEGER : Z := 2 ^ 53 - 1.

(** [new Uint8Array(n)] and [new Uint8ClampedArray(n)] for a number [n]: a
    [RangeError] when [n] is negative or above 2^53 - 1 (ToIndex), and also
    when the engine cannot allocate [n] bytes, which [can_allocate] tells. *)
Definition new_typed_array (can_allocate : Z -> bool) (n : Z) : Res (list byte) :=
  if (n <? 0) || (MAX_SAFE_INTEGER <? n) || negb (can_allocate n)
  then Throw RangeError
  else Ok (zeros n).

(** A buffer in a list of buffers replaced by another. *)
Fixpoint replace_buffer (buffers : list (list byte)) (index : nat) (bytes : list byte)
  : list (list byte) :=
  match buffers, index with
  | [], _ => []
  | _ :: rest, O => bytes :: rest
  | b :: rest, S index' => b :: replace_buffer rest index' bytes
  end.

(** An element of an [Int32Array] over [mem]: four bytes, little endian,
    signed. *)
Definition int32_le (mem : list byte) (index : Z) : Z :=
  let o := Z.to_nat (4 * index) in
  JS.ToInt32 (get mem o + 2 ^ 8 * get mem (o + 1)
              + 2 ^ 16 * get mem (o + 2) + 2 ^ 24 * get mem (o + 3)).

(** ** The WebAssembly instance and the module state *)

(** What the wrapper does with the module, in order. The history is ghost
    state: it records the calls into the module and the output buffers
    JavaScript allocates, so that "nothing was called" can be stated. *)
Inductive Event : Type :=
| CallAddToStackPointer (delta : Z)
| CallMalloc (size align : Z)
| CallAstcDecode (retptr ptr len width height blockWidth blockHeight : Z)
| CallFree (ptr size : Z)
| NewUint8Array (length : Z).

(** How a call into the module ends: with a value, or with an exception (a
    trap, or the [Error] the import [__wbindgen_throw] raises), which reaches
    JavaScript as [WasmTrap]. *)
(** What a cached view ([cachedUint8Memory0], [cachedInt32Memory0]) is. *)
Inductive CachedView : Type :=
| NoView                       (* null *)
| ViewOfMemory                 (* made from wasm.memory.buffer of the instance that
                                  is current; detached, with byteLength 0, once
                                  that memory has grown *)
| ViewOfOld (buffer : nat).    (* made from the memory of an earlier instance *)

Inductive Outcome (A : Type) : Type :=
| Returns (a : A)
| Traps (code : Z).

Arguments Returns {A} a.
Arguments Traps {A} code.

Section Decoder.

(** The part of an instance JavaScript cannot see: globals such as the shadow
    stack pointer, the allocator's bookkeeping. *)
Variable Hidden : Type.

Record Instance : Type := mkInstance {
  memory : list byte;          (* wasm.memory.buffer *)
  hidden : Hidden
}.

(** An export is an arbitrary function of its i32 arguments and the instance:
    it returns or traps, and leaves a new instance either way. *)
Record Exports : Type := mkExports {
  __wbindgen_add_to_stack_pointer : Z -> Instance -> Outcome Z * Instance;
  __wbindgen_malloc : Z -> Z -> Instance -> Outcome Z * Instance;
  astcDecode : Z -> Z -> Z -> Z -> Z -> Z -> Z -> Instance -> Outcome unit * Instance;
  __wbindgen_free : Z -> Z -> Instance -> Outcome unit * Instance
}.

(** The code of the compiled module. *)
Variable exports : Exports.

(** The module-level variables of astc-decode.js, and what they refer to.
    [wasm] is [null] until [initASTCDecoder] has instantiated the module
    (fetching and instantiating are outside the model). [initASTCDecoder]
    replaces [wasm] without resetting the two cached views, so a state may
    hold views of the memory of an earlier instance: [old_buffers] are those
    memories, which only the views still reach. [can_allocate] tells whether
    the engine has room for a new typed array of so many bytes. *)
Record State : Type := mkState {
  wasm : option Instance;
  cachedUint8Memory0 : CachedView;
  cachedInt32Memory0 : CachedView;
  WASM_VECTOR_LEN : Z;
  old_buffers : list (list byte);
  can_allocate : Z -> bool;
  history : list Event         (* newest first *)
}.

Definition M (A : Type) : Type := State -> Res A * State.

Definition ret {A} (a : A) : M A := fun s => (Ok a, s).

Definition throw {A} (e : Error) : M A := fun s => (Throw e, s).

Definition lift {A} (r : Res A) : M A := fun s => (r, s).

Definition bind {A B} (m : M A) (k : A -> M B) : M B :=
  fun s =>
    match m s with
    | (Ok a, s') => k a s'
    | (Throw e, s') => (Throw e, s')
    end.

(** [try { body } finally { fin }]: [fin] runs whatever [body] did; an
    exception of [fin] replaces the outcome of [body]. *)
Definition try_finally {A} (body : M A) (fin : M unit) : M A :=
  fun s =>
    let '(r, s') := body s in
    match fin s' with
    | (Ok _, s'') => (r, s'')
    | (Throw e, s'') => (Throw e, s'')
    end.

Definition record (ev : Event) : M unit :=
  fun s =>
    (Ok tt, mkState (wasm s) (cachedUint8Memory0 s) (cachedInt32Memory0 s)
                    (WASM_VECTOR_LEN s) (old_buffers s) (can_allocate s)
                    (ev :: history s)).

Definition set_WASM_VECTOR_LEN (n : Z) : M unit :=
  fun s =>
    (Ok tt, mkState (wasm s) (cachedUint8Memory0 s) (cachedInt32Memory0 s)
                    n (old_buffers s) (can_allocate s) (history s)).

Definition get_WASM_VECTOR_LEN : M Z := fun s => (Ok (WASM_VECTOR_LEN s), s).

Notation "x <- m ;; k" := (bind m (fun x => k))
  (at level 61, m at next level, right associativity).

(** *** Calls into the module

    A JavaScript number passed to an export is converted with ToInt32 and an
    i32 result comes back as a signed 32-bit number. The call replaces the
    instance by the one the export leaves, also when it traps. *)

Definition invoke {A} (ev : Event) (f : Instance -> Outcome A * Instance) : M A :=
  fun s =>
    match wasm s with
    | None => (Throw TypeError, s)
    | Some inst =>
        let '(r, inst') := f inst in
        (match r with Returns a => Ok a | Traps code => Throw (WasmTrap code) end,
         mkState (Some inst') (cachedUint8Memory0 s) (cachedInt32Memory0 s)
                 (WASM_VECTOR_LEN s) (old_buffers s) (can_allocate s)
                 (ev :: history s))
    end.

(** [wasm.__wbindgen_add_to_stack_pointer(delta)] *)
Definition wasm_add_to_stack_pointer (delta : Z) : M Z :=
  let delta := JS.ToInt32 delta in
  r <- invoke (CallAddToStackPointer delta)
         (__wbindgen_add_to_stack_pointer exports delta) ;;
  ret (JS.ToInt32 r).

(** [wasm.__wbindgen_malloc(size, align)] *)
Definition wasm_malloc (size align : Z) : M Z :=
  let size := JS.ToInt32 size in
  let align := JS.ToInt32 align in
  r <- invoke (CallMalloc size align) (__wbindgen_malloc exports size align) ;;
  ret (JS.ToInt32 r).

(** [wasm.astcDecode(retptr, ptr, len, width, height, blockWidth, blockHeight)] *)
Definition wasm_astcDecode (retptr ptr len width height blockWidth blockHeight : Z)
  : M unit :=
  let retptr := JS.ToInt32 retptr in
  let ptr := JS.ToInt32 ptr in
  let len := JS.ToInt32 len in
  let width := JS.ToInt32 width in
  let height := JS.ToInt32 height in
  let blockWidth := JS.ToInt32 blockWidth in
  let blockHeight := JS.ToInt32 blockHeight in
  invoke (CallAstcDecode retptr ptr len width height blockWidth blockHeight)
    (astcDecode exports retptr ptr len width height blockWidth blockHeight).

(** A number that may be [undefined] (or [NaN], which arises here only from
    arithmetic on [undefined]); both become 0 under ToInt32 and ToUint32. *)
Definition Number := option Z.

Definition number_or_0 (v : Number) : Z :=
  match v with Some z => z | None => 0 end.

(** [wasm.__wbindgen_free(ptr, size)] *)
Definition wasm_free (ptr size : Number) : M unit :=
  let ptr := JS.ToInt32 (number_or_0 ptr) in
  let size := JS.ToInt32 (number_or_0 size) in
  invoke (CallFree ptr size) (__wbindgen_free exports ptr size).

(** *** Memory management utilities *)

(** The bytes a cached view shows when it need not be renewed: it is a
    view of the memory of an earlier instance and its byteLength is not 0. A
    view of the memory of the current instance is either attached, and shows
    that memory, or detached, and is renewed to show it: both ways the bytes
    are those of the current memory, which is the other case below. *)
Definition old_bytes (view : CachedView) (buffers : list (list byte))
  : option (list byte) :=
  match view with
  | ViewOfOld buffer =>
      match nth buffer buffers [] with
      | [] => None
      | bytes => Some bytes
      end
  | _ => None
  end.

(** [getUint8Memory0()]: the cached view, renewed from [wasm.memory.buffer]
    when it is null or has byteLength 0. The model returns the bytes the view
    shows now. *)
Definition getUint8Memory0 : M (list byte) :=
  fun s =>
    match old_bytes (cachedUint8Memory0 s) (old_buffers s) with
    | Some bytes => (Ok bytes, s)
    | None =>
        match wasm s with
        | None => (Throw TypeError, s)
        | Some inst =>
            (Ok (memory inst),
             mkState (wasm s) ViewOfMemory (cachedInt32Memory0 s)
                     (WASM_VECTOR_LEN s) (old_buffers s) (can_allocate s) (history s))
        end
    end.

(** A store through the view [getUint8Memory0()] returned is a store into
    the buffer it views: the memory of the instance, or that of an earlier
    one. *)
Definition write_memory (mem : list byte) : M unit :=
  fun s =>
    match cachedUint8Memory0 s, old_bytes (cachedUint8Memory0 s) (old_buffers s) with
    | ViewOfOld buffer, Some _ =>
        (Ok tt,
         mkState (wasm s) (cachedUint8Memory0 s) (cachedInt32Memory0 s)
                 (WASM_VECTOR_LEN s) (replace_buffer (old_buffers s) buffer mem)
                 (can_allocate s) (history s))
    | _, _ =>
        match wasm s with
        | None => (Throw TypeError, s)
        | Some inst =>
            (Ok tt,
             mkState (Some (mkInstance mem (hidden inst)))
                     (cachedUint8Memory0 s) (cachedInt32Memory0 s)
                     (WASM_VECTOR_LEN s) (old_buffers s) (can_allocate s) (history s))
        end
    end.

(** [getInt32Memory0()]: the other cached view, over the same kind of
    buffer, read four bytes at a time. Memory comes in pages of 64 KiB, so
    its length is a multiple of 4 and the [Int32Array] has [length / 4]
    elements. *)
Definition getInt32Memory0 : M (list byte) :=
  fun s =>
    match old_bytes (cachedInt32Memory0 s) (old_buffers s) with
    | Some bytes => (Ok bytes, s)
    | None =>
        match wasm s with
        | None => (Throw TypeError, s)
        | Some inst =>
            (Ok (memory inst),
             mkState (wasm s) (cachedUint8Memory0 s) ViewOfMemory
                     (WASM_VECTOR_LEN s) (old_buffers s) (can_allocate s) (history s))
        end
    end.

(** [new Uint8Array(n)] for the result: it throws when the engine refuses,
    and is recorded when it succeeds. *)
Definition new_Uint8Array (n : Z) : M Uint8Array :=
  fun s =>
    match new_typed_array (can_allocate s) n with
    | Ok array =>
        (Ok array,
         mkState (wasm s) (cachedUint8Memory0 s) (cachedInt32Memory0 s)
                 (WASM_VECTOR_LEN s) (old_buffers s) (can_allocate s)
                 (NewUint8Array n :: history s))
    | Throw e => (Throw e, s)
    end.

(** [ptr / 4 + k] as an array index: an integer only when 4 divides [ptr]. *)
Definition index_div4_plus (ptr k : Z) : Number :=
  if ptr mod 4 =? 0 then Some (ptr / 4 + k) else None.

(** [view[index]] on an [Int32Array]; [undefined] for an index that is not an
    integer inside the array. *)
Definition Int32Array_get (mem : list byte) (index : Number) : Number :=
  match index with
  | Some i => if (0 <=? i) && (i <? len mem / 4) then Some (int32_le mem i) else None
  | None => None
  end.

(** *** Data transfer utilities *)

Definition passArray8ToWasm0 (arg : Uint8Array) (malloc : Z -> Z -> M Z) : M Z :=
  p <- malloc (len arg * 1) 1 ;;
  let ptr := JS.ushr p 0 in
  mem <- getUint8Memory0 ;;
  mem' <- lift (typed_set mem arg (ptr / 1)) ;;
  _ <- write_memory mem' ;;
  _ <- set_WASM_VECTOR_LEN (len arg) ;;
  ret ptr.

(** The result is a view of the memory; its only caller copies it with
    [slice()] before anything else runs, so the model takes the bytes at
    once. With [len] undefined, [ptr + len] is [NaN], which [subarray] reads
    as 0. *)
Definition getArrayU8FromWasm0 (ptr len : Number) : M Uint8Array :=
  let ptr := JS.ushr (number_or_0 ptr) 0 in
  mem <- getUint8Memory0 ;;
  let end_ := match len with Some l => ptr / 1 + l | None => 0 end in
  ret (subarray mem (ptr / 1) end_).

(** *** Main decoder function *)

(** Lines 189-217, the first part of the [try] block: the payload goes into
    the module, the module decodes, the result is copied out and freed. *)
Definition decode_in_module (compressedData : Uint8Array) (header : Header)
  : M Uint8Array :=
  (* Allocate stack space for return values *)
  returnPointer <- wasm_add_to_stack_pointer (-16) ;;
  (* Transfer compressed data to WebAssembly memory *)
  dataPointer <- passArray8ToWasm0 compressedData wasm_malloc ;;
  (* Execute WebAssembly decoding *)
  vector_len <- get_WASM_VECTOR_LEN ;;
  _ <- wasm_astcDecode returnPointer dataPointer vector_len
         (width header) (height header) (blockWidth header) (blockHeight header) ;;
  (* Retrieve results from WebAssembly memory *)
  mem32 <- getInt32Memory0 ;;
  let resultPointer := Int32Array_get mem32 (index_div4_plus returnPointer 0) in
  mem32 <- getInt32Memory0 ;;
  let resultLength := Int32Array_get mem32 (index_div4_plus returnPointer 1) in
  (* Extract decoded image data *)
  view <- getArrayU8FromWasm0 resultPointer resultLength ;;
  _ <- record (NewUint8Array (len view)) ;;
  let decodedImage := view in
  (* Free WebAssembly memory *)
  _ <- wasm_free resultPointer resultLength ;;
  ret decodedImage.

(** Lines 219-232, the rest of the [try] block: the decoded data is returned
    as it is when it has the expected size, and otherwise copied into a new
    buffer of the expected size (after a console warning), if the engine
    allocates one. The product is exact in double precision: it is below
    2^50. *)
Definition fit_to_expected_size (header : Header) (decodedImage : Uint8Array)
  : M Uint8Array :=
  let expectedSize := width header * height header * 4 in
  if negb (len decodedImage =? expectedSize) then
    properSizedData <- new_Uint8Array expectedSize ;;
    let copyLength := JS.min (len decodedImage) expectedSize in
    properSizedData <- lift (typed_set properSizedData
                               (subarray decodedImage 0 copyLength) 0) ;;
    ret properSizedData
  else
    ret decodedImage.

Definition decodeASTCTexture (astcData : Uint8Array) : M Uint8Array :=
  fun s =>
    (* Validate WebAssembly module initialization *)
    match wasm s with
    | None => (Throw WasmNotInitialized, s)
    | Some _ =>
        (* Parse header to extract metadata *)
        (header <- lift (parseASTCHeader astcData) ;;
         (* Extract compressed data (exclude header) *)
         let compressedData := subarray_from astcData (headerSize header) in
         (* Validate compressed data exists *)
         if len compressedData =? 0 then throw NoCompressedData
         else
           try_finally
             (decodedImage <- decode_in_module compressedData header ;;
              fit_to_expected_size header decodedImage)
             (* Clean up stack allocation *)
             (_ <- wasm_add_to_stack_pointer 16 ;; ret tt)) s
    end.

End Decoder.

Arguments __wbindgen_add_to_stack_pointer {Hidden} e _ _.
Arguments __wbindgen_malloc {Hidden} e _ _ _.
Arguments astcDecode {Hidden} e _ _ _ _ _ _ _ _.
Arguments __wbindgen_free {Hidden} e _ _ _.
Arguments ret {Hidden A} a s.
Arguments throw {Hidden A} e s.
Arguments lift {Hidden A} r s.
Arguments bind {Hidden A B} m k s.
Arguments try_finally {Hidden A} body fin s.
Arguments record {Hidden} ev s.
Arguments set_WASM_VECTOR_LEN {Hidden} n s.
Arguments get_WASM_VECTOR_LEN {Hidden} s.
Arguments invoke {Hidden A} ev f s.
Arguments wasm_malloc {Hidden} exports size align s.
Arguments wasm_astcDecode {Hidden} exports retptr ptr len width height blockWidth blockHeight s.
Arguments wasm_free {Hidden} exports ptr size s.
Arguments getUint8Memory0 {Hidden} s.
Arguments getInt32Memory0 {Hidden} s.
Arguments write_memory {Hidden} mem s.
Arguments passArray8ToWasm0 {Hidden} arg malloc s.
Arguments getArrayU8FromWasm0 {Hidden} ptr len s.
Arguments mkInstance {Hidden} memory hidden.
Arguments memory {Hidden} i.
Arguments hidden {Hidden} i.
Arguments mkState {Hidden} wasm cachedUint8Memory0 cachedInt32Memory0 WASM_VECTOR_LEN
  old_buffers can_allocate history.
Arguments cachedUint8Memory0 {Hidden} s.
Arguments cachedInt32Memory0 {Hidden} s.
Arguments old_buffers {Hidden} s.
Arguments can_allocate {Hidden} s.
Arguments new_Uint8Array {Hidden} n s.
Arguments wasm {Hidden} s.
Arguments WASM_VECTOR_LEN {Hidden} s.
Arguments history {Hidden} s.
Arguments decode_in_module {Hidden} exports compressedData header s.
Arguments fit_to_expected_size {Hidden} header decodedImage s.
Arguments decodeASTCTexture {Hidden} exports astcData s.
Arguments wasm_add_to_stack_pointer {Hidden} exports delta s.

(** ** The container format, as the specification words it *)

(** The signature of an ASTC file. *)
Definition ASTC_MAGIC : list byte := [x13; xab; xa1; x5c].

(** The 24-bit little-endian integer made of three bytes. *)
Definition le24 (b0 b1 b2 : Z) : Z := b0 + 2 ^ 8 * b1 + 2 ^ 16 * b2.

(** The three bytes of a 24-bit integer, least significant first. *)
Definition le24_bytes (n : Z) : list byte :=
  [byte_of_Z (n mod 256); byte_of_Z (n / 256 mod 256); byte_of_Z (n / 65536 mod 256)].

(** The 16-byte layout of section 6 of the specification: magic, block
    footprint at bytes 4-6, dimensions at bytes 7-15. *)
Definition encodeHeader (h : Header) : Uint8Array :=
  ASTC_MAGIC
  ++ [byte_of_Z (blockWidth h); byte_of_Z (blockHeight h); byte_of_Z (blockDepth h)]
  ++ le24_bytes (width h) ++ le24_bytes (height h) ++ le24_bytes (depth h).

(** Two buffers that differ at most in byte 6 (block depth) and bytes 13-15
    (image depth). *)
Definition same_but_depth (a b : Uint8Array) : Prop :=
  List.length a = List.length b /\
  forall i : nat, i <> 6%nat -> i <> 13%nat -> i <> 14%nat -> i <> 15%nat ->
    nth i a x00 = nth i b x00.

(** A buffer cut or filled with zero bytes to [n] bytes: what the wrapper
    makes of a decoded buffer of the wrong size. *)
Definition pad_or_truncate (n : Z) (img : list byte) : list byte :=
  firstn (Z.to_nat (Z.min (len img) n)) img
  ++ repeat x00 (Z.to_nat (n - Z.min (len img) n)).



(** ** Vocabulary of the proofs *)

(** The module has been instantiated. *)
Definition ready {Hidden} (s : State Hidden) : Prop := wasm s <> None.

(** The exceptions that arise where JavaScript meets the module: a trap, or a
    store outside the memory. *)
Definition boundary_error (e : Error) : Prop :=
  e = RangeError \/ exists code, e = WasmTrap code.

(** Started with an instantiated module, [m] leaves it instantiated, returns
    only values that satisfy [Q] and throws only boundary errors. *)
Definition triple {Hidden A} (m : M Hidden A) (Q : A -> Prop) : Prop :=
  forall s, ready s ->
    ready (snd (m s)) /\
    match fst (m s) with
    | Ok a => Q a
    | Throw e => boundary_error e
    end.

(** ** A small module to run the wrapper on

    Its memory has 64 bytes. The stack slot for the results is at 0, every
    allocation is at 16, and [astcDecode] answers with one opaque white
    texel, four bytes at 32, whatever it is given. *)

Module Toy.

Definition poke (mem : list byte) (offset : nat) (bytes : list byte) : list byte :=
  firstn offset mem ++ bytes ++ skipn (offset + List.length bytes) mem.

Definition exports : Exports unit :=
  {| __wbindgen_add_to_stack_pointer := fun _ inst => (Returns 0, inst);
     __wbindgen_malloc := fun _ _ inst => (Returns 16, inst);
     astcDecode := fun _ _ _ _ _ _ _ inst =>
       (Returns tt,
        mkInstance
          (poke (poke (memory inst) 0 [x20; x00; x00; x00; x04; x00; x00; x00])
                32 [xff; xff; xff; xff])
          tt);
     __wbindgen_free := fun _ _ inst => (Returns tt, inst) |}.

(** The same module with a decoder that traps. *)
Definition faulty : Exports unit :=
  {| __wbindgen_add_to_stack_pointer := fun _ inst => (Returns 0, inst);
     __wbindgen_malloc := fun _ _ inst => (Returns 16, inst);
     astcDecode := fun _ _ _ _ _ _ _ inst => (Traps 1, inst);
     __wbindgen_free := fun _ _ inst => (Returns tt, inst) |}.

(** A first instance, no view cached yet, and an engine with room for
    typed arrays of up to 64 KiB. *)
Definition started : State unit :=
  mkState (Some (mkInstance (repeat x00 64) tt)) NoView NoView 0 []
          (fun n => n <=? 65536) [].

(** A second instance, with the byte view still on the memory of the first,
    which held AA everywhere. *)
Definition restarted : State unit :=
  mkState (Some (mkInstance (repeat x00 64) tt)) (ViewOfOld 0) NoView 0
          [repeat xaa 64] (fun n => n <=? 65536) [].

(** One 16-byte block of payload. *)
Definition block : list byte := repeat x00 16.

(** 4x4 blocks, an 8x8 image of depth 1: a grid of 2x2 blocks. *)
Definition header_8x8 : list byte :=
  [x13; xab; xa1; x5c; x04; x04; x01; x08; x00; x00; x08; x00; x00; x01; x00; x00].

(** The same with block depth 3 and image depth 2. *)
Definition header_8x8_deep : list byte :=
  [x13; xab; xa1; x5c; x04; x04; x03; x08; x00; x00; x08; x00; x00; x02; x00; x00].

(** The same with a zeroed magic. *)
Definition header_8x8_no_magic : list byte :=
  [x00; x00; x00; x00; x04; x04; x01; x08; x00; x00; x08; x00; x00; x01; x00; x00].

(** 4x4 blocks, an image of 16777215 x 16777215. *)
Definition header_huge : list byte :=
  [x13; xab; xa1; x5c; x04; x04; x01; xff; xff; xff; xff; xff; xff; x01; x00; x00].

(** 4x4 blocks, a 1x1 image of depth 2. *)
Definition header_1x1x2 : list byte :=
  [x13; xab; xa1; x5c; x04; x04; x01; x01; x00; x00; x01; x00; x00; x02; x00; x00].

(** 4x4 blocks, a 1x1 image whose depth and block depth are 0. *)
Definition header_depth0 : list byte :=
  [x13; xab; xa1; x5c; x04; x04; x00; x01; x00; x00; x01; x00; x00; x00; x00; x00].

End Toy.

(** ** Canvas utility functions

    [createValidImageData], [drawToCanvas] and the methods of the class
    [ASTCDecoder] that do not wait for a promise. The browser's side
    ([ImageData], the canvas and its 2D context) is a parameter. *)

(** [a[i] = v] on a typed array: a store outside the array does nothing. *)
Definition store (a : list byte) (i : nat) (v : byte) : list byte :=
  if (i <? List.length a)%nat then firstn i a ++ v :: skipn (S i) a else a.

(** [for (let i = from; i < to; i++) a[i] = value(i)] *)
Definition for_store (from to : nat) (value : nat -> byte) (a : list byte) : list byte :=
  fold_left (fun acc i => store acc i (value i)) (seq from (to - from)) a.

(** The byte the second loop of [createValidImageData] writes at index [i]:
    [i % 4 === 3 ? 255 : 0]. *)
Definition fill_byte (i : nat) : byte :=
  if Z.of_nat i mod 4 =? 3 then xff else x00.

(** What [createValidImageData] can throw: the [RangeError] of
    [new Uint8ClampedArray(n)], or whatever the constructor [ImageData]
    throws. *)
Inductive CanvasError : Type :=
| InvalidArrayLength
| ImageDataRejected.

(** The browser, for a [canvas] that is a canvas element: [allocates] tells
    whether the engine has room for a new typed array of so many bytes; [new
    ImageData(data, width, height)] returns an image or throws ([None]);
    [canvas.getContext('2d')] returns a context or [null]; [canvas.width]
    and [canvas.height] are assigned; [ctx.putImageData(image, dx, dy)]
    returns or throws ([false]) and leaves a canvas either way. *)
Record Browser (ImageData Canvas : Type) : Type := mkBrowser {
  allocates : Z -> bool;
  new_ImageData : list byte -> Z -> Z -> option ImageData;
  getContext_2d : Canvas -> bool;
  set_width : Z -> Canvas -> Canvas;
  set_height : Z -> Canvas -> Canvas;
  putImageData : ImageData -> Z -> Z -> Canvas -> bool * Canvas
}.

Arguments allocates {ImageData Canvas} b _.
Arguments new_ImageData {ImageData Canvas} b _ _ _.
Arguments getContext_2d {ImageData Canvas} b _.
Arguments set_width {ImageData Canvas} b _ _.
Arguments set_height {ImageData Canvas} b _ _.
Arguments putImageData {ImageData Canvas} b _ _ _ _.

(** What a method of [ASTCDecoder] throws: its own "Decoder not initialized",
    or what [decodeASTCTexture] and [parseASTCHeader] throw. *)
Inductive Thrown : Type :=
| DecoderNotInitialized
| Rethrown (e : Error).

(** An object of the class [ASTCDecoder]. *)
Record ASTCDecoder : Type := mkASTCDecoder {
  wasmPath : option string;
  initialized : bool
}.

Section Canvas.

Context {ImageData Canvas : Type} (browser : Browser ImageData Canvas).

(** [width] and [height] are integers, and a typed array has at most
    2^53 - 1 elements. The product [width * height * 4] is taken exactly:
    in double precision it is exact up to 2^53 - 1, and a product above that
    is rounded to a number above that, which differs from every length and
    is refused by ToIndex like the exact one. The console warning is not
    modelled. *)
Definition createValidImageData (decodedData : Uint8Array) (width height : Z)
  : CanvasError + ImageData :=
  let construct data :=
    match new_ImageData browser data width height with
    | Some image => inr image
    | None => inl ImageDataRejected
    end in
  let expectedSize := width * height * 4 in
  if negb (len decodedData =? expectedSize) then
    (* Create properly sized buffer *)
    match new_typed_array (allocates browser) expectedSize with
    | Throw _ => inl InvalidArrayLength
    | Ok properData =>
        let copyLength := JS.min (len decodedData) expectedSize in
        (* Copy available data *)
        let properData :=
          for_store 0 (Z.to_nat copyLength) (fun i => nth i decodedData x00) properData in
        (* Fill remaining with transparent black if needed *)
        let properData :=
          for_store (Z.to_nat copyLength) (Z.to_nat expectedSize) fill_byte properData in
        construct properData
    end
  else
    construct decodedData.

(** [ctx] tells whether the context is an object ([true]) or [null]; a call
    of a method of [null] throws inside the [try]. Whatever is thrown is
    caught and turned into [false]. *)
Definition drawToCanvas (ctx : bool) (decodedData : Uint8Array) (width height : Z)
    (canvas : Canvas) : bool * Canvas :=
  match createValidImageData decodedData width height with
  | inr imageData =>
      if ctx then putImageData browser imageData 0 0 canvas else (false, canvas)
  | inl _ => (false, canvas)
  end.

Context {Hidden : Type} (exports : Exports Hidden).

(** [decoder.decode(astcData)] *)
Definition decode (this : ASTCDecoder) (astcData : Uint8Array) (s : State Hidden)
  : (Thrown + Uint8Array) * State Hidden :=
  if negb (initialized this) then (inl DecoderNotInitialized, s)
  else
    match decodeASTCTexture exports astcData s with
    | (Ok decodedData, s') => (inr decodedData, s')
    | (Throw e, s') => (inl (Rethrown e), s')
    end.

(** [decoder.decodeAndDraw(astcData, canvas)] *)
Definition decodeAndDraw (this : ASTCDecoder) (astcData : Uint8Array)
    (canvas : Canvas) (s : State Hidden) : (Thrown + bool) * (State Hidden * Canvas) :=
  match decode this astcData s with
  | (inl thrown, s') => (inl thrown, (s', canvas))
  | (inr decodedData, s') =>
      match parseASTCHeader astcData with
      | Throw e => (inl (Rethrown e), (s', canvas))
      | Ok header =>
          let ctx := getContext_2d browser canvas in
          let canvas := set_width browser (width header) canvas in
          let canvas := set_height browser (height header) canvas in
          let '(drawn, canvas) :=
            drawToCanvas ctx decodedData (width header) (height header) canvas in
          (inr drawn, (s', canvas))
      end
  end.

End Canvas.

(** A browser to run the canvas functions on: an image is its bytes and its
    size, accepted when the size is positive and fits the bytes; a canvas is
    its size and the image last put on it. *)
Module ToyBrowser.

Definition Image : Type := list byte * Z * Z.

Record Canvas : Type := mkCanvas {
  canvas_width : Z;
  canvas_height : Z;
  shown : option Image
}.

Definition browser : Browser Image Canvas :=
  {| allocates := fun n => n <=? 65536;
     new_ImageData := fun data width height =>
       if (0 <? width) && (0 <? height) && (len data =? width * height * 4)
       then Some (data, width, height) else None;
     getContext_2d := fun _ => true;
     set_width := fun w c => mkCanvas w (canvas_height c) None;
     set_height := fun h c => mkCanvas (canvas_width c) h None;
     putImageData := fun image _ _ c =>
       (true, mkCanvas (canvas_width c) (canvas_height c) (Some image)) |}.

Definition blank : Canvas := mkCanvas 300 150 None.

End ToyBrowser.

(** ** More vocabulary of the proofs *)

(** [m] leaves the engine's allocator as it found it. *)
Definition keeps_engine {Hidden A} (m : M Hidden A) : Prop :=
  forall s, can_allocate (snd (m s)) = can_allocate s.

(** [m] only adds events to the history. *)
Definition grows {Hidden A} (m : M Hidden A) : Prop :=
  forall s, exists events, history (snd (m s)) = events ++ history s.

Example toy_decode_1x1x2 :
  fst (decodeASTCTexture Toy.exports (Toy.header_1x1x2 ++ Toy.block) Toy.started)
  = Ok [xff; xff; xff; xff].
Proof. vm_compute. reflexivity. Qed.

Example toy_decode_8x8 :
  fst (decodeASTCTexture Toy.exports (Toy.header_8x8 ++ Toy.block) Toy.started)
  = Ok ([xff; xff; xff; xff] ++ repeat x00 252).
Proof. vm_compute. reflexivity. Qed.

Example toy_history :
  history (snd (decodeASTCTexture Toy.exports (Toy.header_8x8 ++ Toy.block) Toy.started))
  = [CallAddToStackPointer 16; NewUint8Array 256; CallFree 32 4; NewUint8Array 4;
     CallAstcDecode 0 16 16 8 8 4 4; CallMalloc 16 1; CallAddToStackPointer (-16)].
Proof. vm_compute. reflexivity. Qed.

Example toy_parse_depth0 :
  parseASTCHeader Toy.header_depth0
  = Ok (mkHeader "4x4" 4 4 0 "1x1" 1 1 0 true 16).
Proof. vm_compute. reflexivity. Qed.

(** ** Arithmetic of bytes and of the 32-bit operators *)

Lemma byte_val_range (b : byte) : 0 <= byte_val b < 256.
Proof.
  unfold byte_val. pose proof (Byte.to_N_bounded b). lia.
Qed.

Lemma byte_val_inj (a b : byte) : byte_val a = byte_val b -> a = b.
Proof.
  unfold byte_val. intros E. apply N2Z.inj in E.
  pose proof (Byte.of_to_N a) as Ha. rewrite E, Byte.of_to_N in Ha.
  now inversion Ha.
Qed.

Lemma byte_val_of_Z (z : Z) : 0 <= z < 256 -> byte_val (byte_of_Z z) = z.
Proof.
  intros R. unfold byte_of_Z, byte_val. rewrite Z.mod_small by lia.
  destruct (Byte.of_N (Z.to_N z)) as [b|] eqn:E.
  - apply Byte.to_of_N in E. lia.
  - apply Byte.of_N_None_iff in E. lia.
Qed.

Lemma get_range (data : Uint8Array) (i : nat) : 0 <= data.[i] < 256.
Proof. apply byte_val_range. Qed.

Lemma ToInt32_small (z : Z) : - 2 ^ 31 <= z < 2 ^ 31 -> JS.ToInt32 z = z.
Proof.
  intros R. unfold JS.ToInt32. rewrite Z.mod_small; lia.
Qed.

Lemma ToInt32_range (z : Z) : - 2 ^ 31 <= JS.ToInt32 z < 2 ^ 31.
Proof.
  unfold JS.ToInt32. pose proof (Z.mod_pos_bound (z + 2 ^ 31) (2 ^ 32)). lia.
Qed.

(** Below [2 ^ k] and at or above [2 ^ k] the bits do not meet: or is plus. *)
Lemma lor_shiftl_plus (a b k : Z) :
  0 <= k -> 0 <= a < 2 ^ k -> Z.lor a (Z.shiftl b k) = a + b * 2 ^ k.
Proof.
  intros Hk Ha.
  assert (D : Z.land a (Z.shiftl b k) = 0).
  { apply Z.bits_inj'. intros n Hn. rewrite Z.land_spec, Z.bits_0.
    destruct (Z.lt_ge_cases n k) as [L|G].
    - rewrite (Z.shiftl_spec_low b k n L). apply andb_false_r.
    - destruct (Z.eq_dec a 0) as [->|Na].
      + now rewrite Z.bits_0.
      + rewrite (Z.bits_above_log2 a n); [reflexivity | lia |].
        apply Z.log2_lt_pow2; [lia|].
        apply Z.lt_le_trans with (2 ^ k); [lia|].
        apply Z.pow_le_mono_r; lia. }
  pose proof (Z.add_lor_land a (Z.shiftl b k)) as E.
  rewrite D in E. rewrite <- (Z.shiftl_mul_pow2 b k) by lia. lia.
Qed.

(** The expression [b0 | (b1 << 8) | (b2 << 16)] on three bytes never leaves
    the 32-bit range: it is the 24-bit little-endian integer. *)
Lemma bor_shl_le24 (b0 b1 b2 : Z) :
  0 <= b0 < 256 -> 0 <= b1 < 256 -> 0 <= b2 < 256 ->
  JS.bor (JS.bor b0 (JS.shl b1 8)) (JS.shl b2 16) = le24 b0 b1 b2.
Proof.
  intros R0 R1 R2. unfold JS.bor, JS.shl.
  change (Z.land (JS.ToUint32 8) 31) with 8.
  change (Z.land (JS.ToUint32 16) 31) with 16.
  rewrite (ToInt32_small b0), (ToInt32_small b1), (ToInt32_small b2) by lia.
  assert (S1 : JS.ToInt32 (Z.shiftl b1 8) = Z.shiftl b1 8).
  { apply ToInt32_small. rewrite Z.shiftl_mul_pow2; lia. }
  assert (S2 : JS.ToInt32 (Z.shiftl b2 16) = Z.shiftl b2 16).
  { apply ToInt32_small. rewrite Z.shiftl_mul_pow2; lia. }
  rewrite S1, S1, S2, S2.
  rewrite (lor_shiftl_plus b0 b1 8) by lia.
  rewrite !(ToInt32_small (b0 + b1 * 2 ^ 8)) by lia.
  rewrite (lor_shiftl_plus _ b2 16) by lia.
  rewrite ToInt32_small by lia. unfold le24. lia.
Qed.

Lemma le24_range (b0 b1 b2 : Z) :
  0 <= b0 < 256 -> 0 <= b1 < 256 -> 0 <= b2 < 256 -> 0 <= le24 b0 b1 b2 < 2 ^ 24.
Proof. unfold le24. lia. Qed.

Lemma le24_of_bytes (n : Z) :
  0 <= n < 2 ^ 24 -> le24 (n mod 256) (n / 256 mod 256) (n / 65536 mod 256) = n.
Proof.
  intros R. unfold le24.
  rewrite (Z.mod_small (n / 65536)) by (split; [apply Z.div_pos; lia | apply Z.div_lt_upper_bound; lia]).
  pose proof (Z.div_mod n 256 ltac:(lia)) as E1.
  pose proof (Z.div_mod (n / 256) 256 ltac:(lia)) as E2.
  rewrite Z.div_div in E2 by lia. change (256 * 256) with 65536 in E2.
  lia.
Qed.

(** ** The header parser *)

Lemma byte_val_eqb (b c : byte) : (byte_val b =? byte_val c) = true <-> b = c.
Proof.
  rewrite Z.eqb_eq. split; [apply byte_val_inj | now intros ->].
Qed.

Lemma isValidMagic_firstn (data : Uint8Array) :
  16 <= len data -> isValidMagic data = true <-> firstn 4 data = ASTC_MAGIC.
Proof.
  unfold len. intros L.
  destruct data as [|a [|b [|c [|d rest]]]]; cbn [List.length] in L; try lia.
  unfold isValidMagic, every, every_from, get, ASTC_MAGIC. cbn [nth firstn].
  change 0x13 with (byte_val x13). change 0xAB with (byte_val xab).
  change 0xA1 with (byte_val xa1). change 0x5C with (byte_val x5c).
  rewrite !andb_true_iff, !byte_val_eqb. split.
  - intros (-> & -> & -> & -> & _). reflexivity.
  - intros E. inversion E. auto.
Qed.

(** The parser with the 32-bit operators computed away. *)
Lemma parseASTCHeader_unfold (data : Uint8Array) :
  parseASTCHeader data =
  if len data <? 16 then Throw (HeaderTooShort (List.length data))
  else if negb (isValidMagic data) then Throw InvalidMagic
  else
    let w := le24 data.[7] data.[8] data.[9] in
    let h := le24 data.[10] data.[11] data.[12] in
    let d := le24 data.[13] data.[14] data.[15] in
    if (w =? 0) || (h =? 0) then Throw InvalidImageDimensions
    else if (data.[4] =? 0) || (data.[5] =? 0) then Throw InvalidBlockDimensions
    else Ok (mkHeader (template_x data.[4] data.[5]) data.[4] data.[5] data.[6]
                      (template_x w h) w h d true 16).
Proof.
  unfold parseASTCHeader. fold (isValidMagic data).
  rewrite !bor_shl_le24 by apply get_range. reflexivity.
Qed.

Lemma parseASTCHeader_ok_iff (data : Uint8Array) :
  is_ok (parseASTCHeader data) = true <->
  16 <= len data /\ firstn 4 data = ASTC_MAGIC /\
  data.[4] <> 0 /\ data.[5] <> 0 /\
  le24 data.[7] data.[8] data.[9] <> 0 /\ le24 data.[10] data.[11] data.[12] <> 0.
Proof.
  rewrite parseASTCHeader_unfold.
  destruct (len data <? 16) eqn:L.
  { apply Z.ltb_lt in L. cbn. split; [discriminate | lia]. }
  apply Z.ltb_ge in L.
  pose proof (isValidMagic_firstn data L) as Hm.
  destruct (isValidMagic data); cbn [negb].
  2:{ cbn. split; [discriminate|]. intros (_ & E & _). apply Hm in E. discriminate. }
  cbv zeta.
  destruct (le24 data.[7] data.[8] data.[9] =? 0) eqn:W; cbn [orb].
  { apply Z.eqb_eq in W. cbn. split; [discriminate | tauto]. }
  destruct (le24 data.[10] data.[11] data.[12] =? 0) eqn:H.
  { apply Z.eqb_eq in H. cbn. split; [discriminate | tauto]. }
  destruct (data.[4] =? 0) eqn:BW; cbn [orb].
  { apply Z.eqb_eq in BW. cbn. split; [discriminate | tauto]. }
  destruct (data.[5] =? 0) eqn:BH.
  { apply Z.eqb_eq in BH. cbn. split; [discriminate | tauto]. }
  apply Z.eqb_neq in W, H, BW, BH. cbn. split; [intros _|reflexivity].
  repeat split; try assumption. now apply Hm.
Qed.

Lemma not_ok_throws {A} (r : Res A) : is_ok r = false <-> exists e, r = Throw e.
Proof.
  destruct r; cbn; split; try discriminate; eauto.
  intros [e0 E]. discriminate.
Qed.

Lemma parseASTCHeader_fields (data : Uint8Array) (h : Header) :
  parseASTCHeader data = Ok h ->
  h = mkHeader (template_x data.[4] data.[5]) data.[4] data.[5] data.[6]
        (template_x (le24 data.[7] data.[8] data.[9]) (le24 data.[10] data.[11] data.[12]))
        (le24 data.[7] data.[8] data.[9]) (le24 data.[10] data.[11] data.[12])
        (le24 data.[13] data.[14] data.[15]) true 16.
Proof.
  rewrite parseASTCHeader_unfold. cbv zeta.
  destruct (len data <? 16); [discriminate|].
  destruct (negb (isValidMagic data)); [discriminate|].
  destruct (_ || _); [discriminate|].
  destruct (_ || _); [discriminate|].
  intros E. now inversion E.
Qed.

(** C4: on success the block footprint is bytes 4, 5 and 6, the dimensions
    are the 24-bit little-endian integers at bytes 7-9, 10-12 and 13-15, and
    [headerSize], where the payload begins, is 16. *)
Theorem parseASTCHeader_extracts (data : Uint8Array) (h : Header) :
  parseASTCHeader data = Ok h ->
  blockWidth h = data.[4] /\ blockHeight h = data.[5] /\ blockDepth h = data.[6] /\
  width h = le24 data.[7] data.[8] data.[9] /\
  height h = le24 data.[10] data.[11] data.[12] /\
  depth h = le24 data.[13] data.[14] data.[15] /\
  headerSize h = 16.
Proof.
  intros P. rewrite (parseASTCHeader_fields data h P). cbn. repeat split.
Qed.

Lemma parseASTCHeader_extracts_witness :
  parseASTCHeader Toy.header_8x8
  = Ok (mkHeader "4x4" 4 4 1 "8x8" 8 8 1 true 16) /\
  (4 = Toy.header_8x8.[4] /\ 4 = Toy.header_8x8.[5] /\ 1 = Toy.header_8x8.[6] /\
   8 = le24 Toy.header_8x8.[7] Toy.header_8x8.[8] Toy.header_8x8.[9] /\
   8 = le24 Toy.header_8x8.[10] Toy.header_8x8.[11] Toy.header_8x8.[12] /\
   1 = le24 Toy.header_8x8.[13] Toy.header_8x8.[14] Toy.header_8x8.[15] /\
   16 = 16).
Proof.
  split; [vm_compute; reflexivity|].
  apply (parseASTCHeader_extracts Toy.header_8x8
           (mkHeader "4x4" 4 4 1 "8x8" 8 8 1 true 16)).
  vm_compute. reflexivity.
Defined.

(** C3: the parser throws exactly when the buffer has fewer than 16 bytes, or
    its first four bytes are not 13 AB A1 5C, or one of the components it
    validates (block width, block height, image width, image height) is
    zero. *)
Theorem parseASTCHeader_throws_iff (data : Uint8Array) :
  (exists e, parseASTCHeader data = Throw e) <->
  len data < 16 \/ firstn 4 data <> ASTC_MAGIC \/
  (data.[4] = 0 \/ data.[5] = 0 \/
   le24 data.[7] data.[8] data.[9] = 0 \/ le24 data.[10] data.[11] data.[12] = 0).
Proof.
  rewrite <- not_ok_throws, <- not_true_iff_false, parseASTCHeader_ok_iff.
  split.
  - intros NOK.
    destruct (Z_lt_dec (len data) 16) as [L|L]; [now left|].
    destruct (list_eq_dec Byte.byte_eq_dec (firstn 4 data) ASTC_MAGIC) as [E|N];
      [|now right; left].
    right. right.
    destruct (Z.eq_dec data.[4] 0); [now left|].
    destruct (Z.eq_dec data.[5] 0); [now right; left|].
    destruct (Z.eq_dec (le24 data.[7] data.[8] data.[9]) 0); [now right; right; left|].
    destruct (Z.eq_dec (le24 data.[10] data.[11] data.[12]) 0); [now right; right; right|].
    exfalso. apply NOK. repeat split; try assumption. lia.
  - intros [L | [N | [Z4 | [Z5 | [ZW | ZH]]]]] (L' & E & N4 & N5 & NW & NH);
      [lia | now apply N | now apply N4 | now apply N5 | now apply NW | now apply NH].
Qed.

(** C2 as stated fails: a header whose block depth and image depth are zero
    has 16 bytes, the right magic and a zero component, and parses. *)
Lemma parseASTCHeader_accepts_zero_depth :
  16 <= len Toy.header_depth0 /\
  firstn 4 Toy.header_depth0 = ASTC_MAGIC /\
  Toy.header_depth0.[6] = 0 /\
  le24 Toy.header_depth0.[13] Toy.header_depth0.[14] Toy.header_depth0.[15] = 0 /\
  exists h, parseASTCHeader Toy.header_depth0 = Ok h /\ blockDepth h = 0 /\ depth h = 0.
Proof.
  repeat split; try (vm_compute; congruence).
  eexists. split; [vm_compute; reflexivity|]. split; reflexivity.
Qed.

(** C2, amended: on a buffer of at least 16 bytes with the right magic, the
    parser throws when block width, block height, image width or image height
    is zero, and succeeds otherwise; block depth and image depth are read
    but not checked. *)
Theorem parseASTCHeader_zero_check (data : Uint8Array) :
  16 <= len data -> firstn 4 data = ASTC_MAGIC ->
  ((data.[4] = 0 \/ data.[5] = 0 \/
    le24 data.[7] data.[8] data.[9] = 0 \/ le24 data.[10] data.[11] data.[12] = 0) ->
   exists e, parseASTCHeader data = Throw e) /\
  (~ (data.[4] = 0 \/ data.[5] = 0 \/
      le24 data.[7] data.[8] data.[9] = 0 \/ le24 data.[10] data.[11] data.[12] = 0) ->
   exists h, parseASTCHeader data = Ok h).
Proof.
  intros L E. split.
  - intros Z. apply not_ok_throws, not_true_iff_false.
    rewrite parseASTCHeader_ok_iff. intros (_ & _ & N4 & N5 & NW & NH).
    destruct Z as [Z | [Z | [Z | Z]]]; contradiction.
  - intros NZ.
    assert (OK : is_ok (parseASTCHeader data) = true).
    { apply parseASTCHeader_ok_iff. repeat split; try assumption; tauto. }
    destruct (parseASTCHeader data) as [h|e]; [eauto | discriminate].
Qed.

Lemma parseASTCHeader_zero_check_witness :
  (16 <= len Toy.header_depth0 /\ firstn 4 Toy.header_depth0 = ASTC_MAGIC) /\
  exists h, parseASTCHeader Toy.header_depth0 = Ok h.
Proof.
  assert (L : 16 <= len Toy.header_depth0) by (vm_compute; congruence).
  assert (E : firstn 4 Toy.header_depth0 = ASTC_MAGIC) by reflexivity.
  split; [now split|].
  apply (parseASTCHeader_zero_check Toy.header_depth0 L E).
  vm_compute. intros [H | [H | [H | H]]]; discriminate H.
Defined.

(** ** Encoding a header and parsing it again *)

Ltac encoded_le24 :=
  unfold encodeHeader, le24_bytes, get; cbn [ASTC_MAGIC app nth];
  rewrite !byte_val_of_Z by (apply Z.mod_pos_bound; lia);
  apply le24_of_bytes; lia.

Lemma parseASTCHeader_encodeHeader (h : Header) :
  0 < blockWidth h < 256 -> 0 < blockHeight h < 256 -> 0 <= blockDepth h < 256 ->
  0 < width h < 2 ^ 24 -> 0 < height h < 2 ^ 24 -> 0 <= depth h < 2 ^ 24 ->
  parseASTCHeader (encodeHeader h)
  = Ok (mkHeader (template_x (blockWidth h) (blockHeight h))
          (blockWidth h) (blockHeight h) (blockDepth h)
          (template_x (width h) (height h)) (width h) (height h) (depth h) true 16).
Proof.
  intros Rbw Rbh Rbd Rw Rh Rd.
  assert (G4 : (encodeHeader h).[4] = blockWidth h)
    by (unfold encodeHeader, get; cbn [ASTC_MAGIC app nth]; apply byte_val_of_Z; lia).
  assert (G5 : (encodeHeader h).[5] = blockHeight h)
    by (unfold encodeHeader, get; cbn [ASTC_MAGIC app nth]; apply byte_val_of_Z; lia).
  assert (G6 : (encodeHeader h).[6] = blockDepth h)
    by (unfold encodeHeader, get; cbn [ASTC_MAGIC app nth]; apply byte_val_of_Z; lia).
  assert (GW : le24 (encodeHeader h).[7] (encodeHeader h).[8] (encodeHeader h).[9]
               = width h) by encoded_le24.
  assert (GH : le24 (encodeHeader h).[10] (encodeHeader h).[11] (encodeHeader h).[12]
               = height h) by encoded_le24.
  assert (GD : le24 (encodeHeader h).[13] (encodeHeader h).[14] (encodeHeader h).[15]
               = depth h) by encoded_le24.
  assert (OK : is_ok (parseASTCHeader (encodeHeader h)) = true).
  { apply parseASTCHeader_ok_iff. rewrite G4, G5, GW, GH.
    repeat split; try lia. vm_compute. congruence. }
  destruct (parseASTCHeader (encodeHeader h)) as [h'|e] eqn:P; [|discriminate].
  rewrite (parseASTCHeader_fields _ _ P), G4, G5, G6, GW, GH, GD. reflexivity.
Qed.

(** C8: a valid header record, laid out in the 16-byte format and parsed
    again, comes back with the same block footprint and dimensions. *)
Theorem parseASTCHeader_roundtrip (h : Header) :
  0 < blockWidth h < 256 -> 0 < blockHeight h < 256 -> 0 <= blockDepth h < 256 ->
  0 < width h < 2 ^ 24 -> 0 < height h < 2 ^ 24 -> 0 <= depth h < 2 ^ 24 ->
  exists h', parseASTCHeader (encodeHeader h) = Ok h' /\
    blockWidth h' = blockWidth h /\ blockHeight h' = blockHeight h /\
    blockDepth h' = blockDepth h /\
    width h' = width h /\ height h' = height h /\ depth h' = depth h.
Proof.
  intros Rbw Rbh Rbd Rw Rh Rd. eexists. split.
  - now apply parseASTCHeader_encodeHeader.
  - cbn. repeat split.
Qed.

Lemma parseASTCHeader_roundtrip_witness :
  exists h', parseASTCHeader (encodeHeader (mkHeader "6x5" 6 5 1 "1280x720" 1280 720 1 true 16))
             = Ok h' /\
    blockWidth h' = 6 /\ blockHeight h' = 5 /\ blockDepth h' = 1 /\
    width h' = 1280 /\ height h' = 720 /\ depth h' = 1.
Proof.
  apply (parseASTCHeader_roundtrip (mkHeader "6x5" 6 5 1 "1280x720" 1280 720 1 true 16));
    cbn; lia.
Defined.

(** ** Plain arrays: lengths, windows, stores *)

Lemma len_nonneg {A} (l : list A) : 0 <= len l.
Proof. unfold len. lia. Qed.

Lemma skipn_repeat {A} (x : A) (k n : nat) :
  skipn k (repeat x n) = repeat x (n - k).
Proof.
  revert n. induction k as [|k IH]; intros [|n]; cbn; auto.
Qed.

Lemma subarray_prefix (a : Uint8Array) (c : Z) :
  0 <= c <= len a -> subarray a 0 c = firstn (Z.to_nat c) a.
Proof.
  intros R. unfold subarray, subarray_bounds, window.
  replace (c <? 0) with false by (symmetry; apply Z.ltb_ge; lia).
  cbn [Z.ltb Z.compare fst snd].
  rewrite (Z.min_l 0), (Z.min_l c), Z.sub_0_r, (Z.max_l c) by lia.
  reflexivity.
Qed.

Lemma subarray_from_16 (a : Uint8Array) :
  16 <= len a -> subarray_from a 16 = skipn 16 a.
Proof.
  intros R. unfold subarray_from, subarray, subarray_bounds, window.
  replace (len a <? 0) with false by (symmetry; apply Z.ltb_ge; lia).
  cbn [Z.ltb Z.compare fst snd].
  rewrite (Z.min_l 16), Z.min_id, (Z.max_l (len a - 16)) by lia.
  change (Z.to_nat 16) with 16%nat.
  apply firstn_all2. rewrite length_skipn. unfold len in *. lia.
Qed.

Lemma len_pad_or_truncate (n : Z) (img : list byte) :
  0 <= n -> len (pad_or_truncate n img) = n.
Proof.
  intros R. unfold pad_or_truncate, len.
  rewrite length_app, length_firstn, repeat_length.
  pose proof (len_nonneg img). unfold len in *. lia.
Qed.

Lemma typed_set_throws (target source : list byte) (offset : Z) (e : Error) :
  typed_set target source offset = Throw e -> e = RangeError.
Proof.
  unfold typed_set. destruct (_ || _); congruence.
Qed.

(** The copy of lines 225-227 always fits. *)
Lemma typed_set_zeros (n : Z) (img : list byte) :
  0 <= n ->
  typed_set (zeros n) (subarray img 0 (JS.min (len img) n)) 0
  = Ok (pad_or_truncate n img).
Proof.
  intros R. pose proof (len_nonneg img) as L. unfold JS.min.
  rewrite subarray_prefix by lia.
  assert (LS : List.length (firstn (Z.to_nat (Z.min (len img) n)) img)
               = Z.to_nat (Z.min (len img) n)).
  { apply firstn_length_le. unfold len in *. lia. }
  assert (LZ : len (firstn (Z.to_nat (Z.min (len img) n)) img) = Z.min (len img) n).
  { unfold len at 1. rewrite LS. lia. }
  assert (LT : len (repeat x00 (Z.to_nat n)) = n).
  { unfold len. rewrite repeat_length. lia. }
  unfold typed_set, zeros. rewrite LT, LZ.
  replace (n <? 0 + Z.min (len img) n) with false by (symmetry; apply Z.ltb_ge; lia).
  cbn [Z.ltb Z.compare orb Z.to_nat firstn app Nat.add].
  rewrite skipn_repeat, LS. unfold pad_or_truncate. do 3 f_equal. lia.
Qed.

(** ** The decoder *)

Create HintDb triples.

Section DecoderFacts.

Context {Hidden : Type} (exports : Exports Hidden).

(** *** What each step may throw *)

Lemma triple_ret {A} (a : A) (Q : A -> Prop) : Q a -> triple (Hidden := Hidden) (ret a) Q.
Proof. intros HQ s R. now split. Qed.

Lemma triple_bind {A B} (m : M Hidden A) (k : A -> M Hidden B) (P : A -> Prop) (Q : B -> Prop) :
  triple m P -> (forall a, P a -> triple (k a) Q) -> triple (bind m k) Q.
Proof.
  intros Hm Hk s R. unfold bind.
  destruct (Hm s R) as [R1 V]. destruct (m s) as [[a|e] s1]; cbn in *.
  - now apply Hk.
  - now split.
Qed.

Lemma triple_weaken {A} (m : M Hidden A) (P Q : A -> Prop) :
  triple m P -> (forall a, P a -> Q a) -> triple m Q.
Proof.
  intros Hm PQ s R. destruct (Hm s R) as [R1 V]. split; [assumption|].
  destruct (fst (m s)); auto.
Qed.

Lemma triple_lift {A} (r : Res A) (Q : A -> Prop) :
  match r with Ok a => Q a | Throw e => boundary_error e end ->
  triple (Hidden := Hidden) (lift r) Q.
Proof. intros Hr s R. now split. Qed.

Lemma triple_invoke {A} (ev : Event) (f : Instance Hidden -> Outcome A * Instance Hidden) :
  triple (invoke ev f) (fun _ => True).
Proof.
  intros s R. unfold invoke.
  destruct (wasm s) as [inst|] eqn:E; [|now elim R].
  destruct (f inst) as [[a|code] inst']; cbn; (split; [discriminate|]); auto.
  right. now exists code.
Qed.

Lemma triple_getUint8Memory0 : triple (Hidden := Hidden) getUint8Memory0 (fun _ => True).
Proof.
  intros s R. unfold getUint8Memory0.
  destruct (old_bytes _ _); [now split|].
  destruct (wasm s) as [inst|] eqn:E; [|now elim R].
  split; [|exact I]. unfold ready. cbn. congruence.
Qed.

Lemma triple_getInt32Memory0 : triple (Hidden := Hidden) getInt32Memory0 (fun _ => True).
Proof.
  intros s R. unfold getInt32Memory0.
  destruct (old_bytes _ _); [now split|].
  destruct (wasm s) as [inst|] eqn:E; [|now elim R].
  split; [|exact I]. unfold ready. cbn. congruence.
Qed.

Lemma triple_write_memory (mem : list byte) :
  triple (Hidden := Hidden) (write_memory mem) (fun _ => True).
Proof.
  intros s R. unfold write_memory.
  destruct (wasm s) as [inst|] eqn:E; [|now elim R].
  destruct (cachedUint8Memory0 s); try destruct (old_bytes _ _);
    (split; [unfold ready; cbn; congruence | exact I]).
Qed.

Lemma triple_record (ev : Event) : triple (Hidden := Hidden) (record ev) (fun _ => True).
Proof. intros s R. now split. Qed.

Lemma triple_set_WASM_VECTOR_LEN (n : Z) :
  triple (Hidden := Hidden) (set_WASM_VECTOR_LEN n) (fun _ => True).
Proof. intros s R. now split. Qed.

Lemma triple_get_WASM_VECTOR_LEN :
  triple (Hidden := Hidden) get_WASM_VECTOR_LEN (fun _ => True).
Proof. intros s R. now split. Qed.

Lemma triple_try_finally {A} (body : M Hidden A) (fin : M Hidden unit) (Q : A -> Prop) :
  triple body Q -> triple fin (fun _ => True) -> triple (try_finally body fin) Q.
Proof.
  intros Hb Hf s R. unfold try_finally.
  destruct (Hb s R) as [R1 V]. destruct (body s) as [r s1]. cbn in R1, V.
  destruct (Hf s1 R1) as [R2 W]. destruct (fin s1) as [[u|e] s2]; cbn in *; now split.
Qed.

#[local] Hint Resolve triple_invoke triple_getUint8Memory0 triple_getInt32Memory0
  triple_write_memory triple_record
  triple_set_WASM_VECTOR_LEN triple_get_WASM_VECTOR_LEN : triples.

Ltac step := eapply triple_bind; [solve [eauto with triples] | intros ? _].

Lemma triple_wasm_add_to_stack_pointer (delta : Z) :
  triple (wasm_add_to_stack_pointer exports delta) (fun _ => True).
Proof.
  unfold wasm_add_to_stack_pointer. step. now apply triple_ret.
Qed.

Lemma triple_wasm_malloc (size align : Z) :
  triple (wasm_malloc exports size align) (fun _ => True).
Proof.
  unfold wasm_malloc. step. now apply triple_ret.
Qed.

Lemma triple_passArray8ToWasm0 (arg : Uint8Array) :
  triple (passArray8ToWasm0 arg (wasm_malloc exports)) (fun _ => True).
Proof.
  unfold passArray8ToWasm0.
  eapply triple_bind; [apply triple_wasm_malloc | intros p _].
  eapply triple_bind; [apply triple_getUint8Memory0 | intros mem _].
  eapply triple_bind with (P := fun _ => True).
  { apply triple_lift. destruct (typed_set _ _ _) eqn:E; [exact I|].
    left. eapply typed_set_throws, E. }
  intros mem' _. step. step. now apply triple_ret.
Qed.

Lemma triple_getArrayU8FromWasm0 (ptr len : Number) :
  triple (Hidden := Hidden) (getArrayU8FromWasm0 ptr len) (fun _ => True).
Proof.
  unfold getArrayU8FromWasm0. step. now apply triple_ret.
Qed.

Lemma triple_decode_in_module (compressedData : Uint8Array) (header : Header) :
  triple (decode_in_module exports compressedData header) (fun _ => True).
Proof.
  unfold decode_in_module.
  eapply triple_bind; [apply triple_wasm_add_to_stack_pointer | intros returnPointer _].
  eapply triple_bind; [apply triple_passArray8ToWasm0 | intros dataPointer _].
  step.
  eapply triple_bind; [apply triple_invoke | intros _ _].
  step. step.
  eapply triple_bind; [apply triple_getArrayU8FromWasm0 | intros view _].
  step.
  eapply triple_bind; [apply triple_invoke | intros _ _].
  now apply triple_ret.
Qed.

(** *** Sizing the result *)

Lemma new_typed_array_ok (allocate : Z -> bool) (n : Z) (array : list byte) :
  new_typed_array allocate n = Ok array ->
  array = zeros n /\ 0 <= n <= MAX_SAFE_INTEGER /\ allocate n = true.
Proof.
  unfold new_typed_array.
  destruct (n <? 0) eqn:N; [discriminate|].
  destruct (MAX_SAFE_INTEGER <? n) eqn:X; [discriminate|].
  destruct (allocate n); [|discriminate]. cbn.
  apply Z.ltb_ge in N, X. intros E. inversion E. auto.
Qed.

Lemma new_typed_array_throws (allocate : Z -> bool) (n : Z) (e : Error) :
  new_typed_array allocate n = Throw e -> e = RangeError.
Proof.
  unfold new_typed_array. destruct (_ || _); congruence.
Qed.

Lemma new_typed_array_allocated (allocate : Z -> bool) (n : Z) :
  0 <= n <= MAX_SAFE_INTEGER -> allocate n = true ->
  new_typed_array allocate n = Ok (zeros n).
Proof.
  intros R A. unfold new_typed_array. rewrite A.
  replace (n <? 0) with false by (symmetry; apply Z.ltb_ge; lia).
  now replace (MAX_SAFE_INTEGER <? n) with false by (symmetry; apply Z.ltb_ge; lia).
Qed.

Lemma fit_to_expected_size_eq (h : Header) (img : Uint8Array) (s : State Hidden) :
  0 <= width h * height h * 4 ->
  fit_to_expected_size h img s =
  if len img =? width h * height h * 4 then (Ok img, s)
  else
    match new_typed_array (can_allocate s) (width h * height h * 4) with
    | Ok _ =>
        (Ok (pad_or_truncate (width h * height h * 4) img),
         mkState (wasm s) (cachedUint8Memory0 s) (cachedInt32Memory0 s)
                 (WASM_VECTOR_LEN s) (old_buffers s) (can_allocate s)
                 (NewUint8Array (width h * height h * 4) :: history s))
    | Throw e => (Throw e, s)
    end.
Proof.
  intros R. unfold fit_to_expected_size.
  destruct (len img =? width h * height h * 4); cbn [negb]; [reflexivity|].
  unfold bind, new_Uint8Array, lift.
  destruct (new_typed_array (can_allocate s) (width h * height h * 4)) as [array|e] eqn:A;
    [|reflexivity].
  apply new_typed_array_ok in A. destruct A as [-> _].
  rewrite typed_set_zeros by assumption. reflexivity.
Qed.

Lemma triple_fit_to_expected_size (h : Header) (img : Uint8Array) :
  0 <= width h * height h * 4 ->
  triple (Hidden := Hidden) (fit_to_expected_size h img)
         (fun out => len out = width h * height h * 4).
Proof.
  intros R s Rs. rewrite fit_to_expected_size_eq by assumption.
  destruct (len img =? width h * height h * 4) eqn:E; cbn.
  - apply Z.eqb_eq in E. now split.
  - destruct (new_typed_array (can_allocate s) (width h * height h * 4)) as [array|e] eqn:A;
      cbn.
    + split; [exact Rs | now apply len_pad_or_truncate].
    + split; [exact Rs|]. left. now apply (new_typed_array_throws _ _ _ A).
Qed.

(** *** The engine's allocator is nobody's to change *)

Lemma keeps_engine_bind {A B} (m : M Hidden A) (k : A -> M Hidden B) :
  keeps_engine m -> (forall a, keeps_engine (k a)) -> keeps_engine (bind m k).
Proof.
  intros Hm Hk s. unfold bind. specialize (Hm s).
  destruct (m s) as [[a|e] s1]; cbn [snd] in *; [|exact Hm].
  now rewrite Hk.
Qed.

Lemma keeps_engine_invoke {A} (ev : Event)
    (f : Instance Hidden -> Outcome A * Instance Hidden) :
  keeps_engine (invoke ev f).
Proof.
  intros s. unfold invoke. destruct (wasm s) as [inst|]; [|reflexivity].
  now destruct (f inst).
Qed.

Lemma keeps_engine_getUint8Memory0 : keeps_engine (Hidden := Hidden) getUint8Memory0.
Proof.
  intros s. unfold getUint8Memory0.
  destruct (old_bytes _ _); [reflexivity|]. now destruct (wasm s).
Qed.

Lemma keeps_engine_getInt32Memory0 : keeps_engine (Hidden := Hidden) getInt32Memory0.
Proof.
  intros s. unfold getInt32Memory0.
  destruct (old_bytes _ _); [reflexivity|]. now destruct (wasm s).
Qed.

Lemma keeps_engine_write_memory (mem : list byte) :
  keeps_engine (Hidden := Hidden) (write_memory mem).
Proof.
  intros s. unfold write_memory.
  destruct (cachedUint8Memory0 s); try destruct (old_bytes _ _);
    now destruct (wasm s).
Qed.

Ltac engine :=
  repeat first
    [ apply keeps_engine_invoke | apply keeps_engine_getUint8Memory0
    | apply keeps_engine_getInt32Memory0 | apply keeps_engine_write_memory
    | intros ?; reflexivity
    | apply keeps_engine_bind; [|intros ?] ].

Lemma keeps_engine_decode_in_module (c : Uint8Array) (h : Header) :
  keeps_engine (decode_in_module exports c h).
Proof.
  unfold decode_in_module, wasm_add_to_stack_pointer, passArray8ToWasm0, wasm_malloc,
    wasm_astcDecode, wasm_free, getArrayU8FromWasm0.
  engine.
Qed.

Lemma parsed_size_safe (data : Uint8Array) (h : Header) :
  parseASTCHeader data = Ok h -> 0 <= width h * height h * 4 <= MAX_SAFE_INTEGER.
Proof.
  intros P. rewrite (parseASTCHeader_fields data h P). cbn [width height].
  pose proof (le24_range _ _ _ (get_range data 7) (get_range data 8) (get_range data 9)).
  pose proof (le24_range _ _ _ (get_range data 10) (get_range data 11) (get_range data 12)).
  unfold MAX_SAFE_INTEGER. nia.
Qed.

(** *** The paths through [decodeASTCTexture] *)

Lemma decodeASTCTexture_not_ready (data : Uint8Array) (s : State Hidden) :
  wasm s = None -> decodeASTCTexture exports data s = (Throw WasmNotInitialized, s).
Proof. intros E. unfold decodeASTCTexture. now rewrite E. Qed.

Lemma decodeASTCTexture_parse_throws (data : Uint8Array) (s : State Hidden) (e : Error) :
  parseASTCHeader data = Throw e ->
  exists e', decodeASTCTexture exports data s = (Throw e', s).
Proof.
  intros P. unfold decodeASTCTexture. destruct (wasm s); [|eauto].
  unfold bind, lift. rewrite P. eauto.
Qed.

Lemma parseASTCHeader_ok_length (data : Uint8Array) (h : Header) :
  parseASTCHeader data = Ok h -> 16 <= len data.
Proof.
  intros P. apply (parseASTCHeader_ok_iff data). now rewrite P.
Qed.

Lemma parsed_headerSize (data : Uint8Array) (h : Header) :
  parseASTCHeader data = Ok h -> headerSize h = 16.
Proof.
  intros P. rewrite (parseASTCHeader_fields data h P). reflexivity.
Qed.

Lemma decodeASTCTexture_empty_payload (data : Uint8Array) (s : State Hidden) (h : Header) :
  parseASTCHeader data = Ok h -> len data = 16 ->
  decodeASTCTexture exports data s
  = (Throw (match wasm s with None => WasmNotInitialized | Some _ => NoCompressedData end), s).
Proof.
  intros P L. unfold decodeASTCTexture. destruct (wasm s); [|reflexivity].
  unfold bind, lift. rewrite P.
  rewrite (parsed_headerSize data h P), subarray_from_16 by lia.
  assert (E : skipn 16 data = []) by (apply skipn_all2; unfold len in L; lia).
  rewrite E. reflexivity.
Qed.

Lemma decodeASTCTexture_ready (data : Uint8Array) (s : State Hidden) (h : Header) :
  ready s -> parseASTCHeader data = Ok h -> 16 < len data ->
  decodeASTCTexture exports data s
  = try_finally
      (bind (decode_in_module exports (subarray_from data 16) h)
            (fun decodedImage => fit_to_expected_size h decodedImage))
      (bind (wasm_add_to_stack_pointer exports 16) (fun _ => ret tt)) s.
Proof.
  intros R P L. unfold decodeASTCTexture.
  destruct (wasm s) eqn:E; [|now elim R].
  unfold bind at 1. unfold lift. rewrite P.
  rewrite (parsed_headerSize data h P).
  replace (len (subarray_from data 16) =? 0) with false; [reflexivity|].
  symmetry. apply Z.eqb_neq. rewrite subarray_from_16 by lia.
  unfold len in *. rewrite length_skipn. lia.
Qed.

Lemma parsed_size_nonneg (data : Uint8Array) (h : Header) :
  parseASTCHeader data = Ok h -> 0 <= width h * height h * 4.
Proof.
  intros P. rewrite (parseASTCHeader_fields data h P). cbn [width height].
  pose proof (le24_range _ _ _ (get_range data 7) (get_range data 8) (get_range data 9)).
  pose proof (le24_range _ _ _ (get_range data 10) (get_range data 11) (get_range data 12)).
  nia.
Qed.

(** With an instantiated module, a valid header and a payload that is not
    empty, the decoder returns a buffer of [width * height * 4] bytes or
    throws a boundary error. *)
Lemma decodeASTCTexture_outcome (data : Uint8Array) (s : State Hidden) (h : Header) :
  ready s -> parseASTCHeader data = Ok h -> 16 < len data ->
  match fst (decodeASTCTexture exports data s) with
  | Ok out => len out = width h * height h * 4
  | Throw e => boundary_error e
  end.
Proof.
  intros R P L. rewrite (decodeASTCTexture_ready data s h R P L).
  apply triple_try_finally; [| | exact R].
  - eapply triple_bind; [apply triple_decode_in_module | intros img _].
    apply triple_fit_to_expected_size. now apply (parsed_size_nonneg data).
  - eapply triple_bind; [apply triple_wasm_add_to_stack_pointer | intros _ _].
    now apply triple_ret.
Qed.

Lemma decode_in_module_needs_instance
    (c : Uint8Array) (h : Header) (s s1 : State Hidden) (img : Uint8Array) :
  decode_in_module exports c h s = (Ok img, s1) -> ready s /\ ready s1.
Proof.
  intros D.
  assert (R : ready s).
  { intros E. unfold decode_in_module, wasm_add_to_stack_pointer, bind at 1 2, invoke in D.
    rewrite E in D. discriminate D. }
  split; [exact R|].
  pose proof (triple_decode_in_module c h s R) as [R1 _]. now rewrite D in R1.
Qed.

Lemma restore_stack_returns (s : State Hidden) (inst inst' : Instance Hidden) (r : Z) :
  wasm s = Some inst ->
  __wbindgen_add_to_stack_pointer exports 16 inst = (Returns r, inst') ->
  bind (wasm_add_to_stack_pointer exports 16) (fun _ => ret tt) s
  = (Ok tt, mkState (Some inst') (cachedUint8Memory0 s) (cachedInt32Memory0 s)
                    (WASM_VECTOR_LEN s) (old_buffers s) (can_allocate s)
                    (CallAddToStackPointer 16 :: history s)).
Proof.
  intros E Er. unfold wasm_add_to_stack_pointer, bind, invoke, ret.
  rewrite E. change (JS.ToInt32 16) with 16. rewrite Er. reflexivity.
Qed.

(** *** Size of the result *)

(** C1, amended: when the header parses with width W and height H, a
    successful decode returns exactly W*H*4 bytes; the depth of the header
    plays no part, so this is W*H*D*4 when the depth D is 1. *)
Theorem decodeASTCTexture_output_length
    (data : Uint8Array) (s s' : State Hidden) (h : Header) (out : Uint8Array) :
  parseASTCHeader data = Ok h ->
  decodeASTCTexture exports data s = (Ok out, s') ->
  len out = width h * height h * 4 /\
  (depth h = 1 -> len out = width h * height h * depth h * 4).
Proof.
  intros P D.
  assert (L : len out = width h * height h * 4).
  { destruct (wasm s) as [inst|] eqn:E.
    2:{ rewrite (decodeASTCTexture_not_ready data s E) in D. discriminate D. }
    assert (R : ready s) by (unfold ready; congruence).
    pose proof (parseASTCHeader_ok_length data h P) as L16.
    destruct (Z.eq_dec (len data) 16) as [L|L].
    { rewrite (decodeASTCTexture_empty_payload data s h P L) in D. discriminate D. }
    pose proof (decodeASTCTexture_outcome data s h R P ltac:(lia)) as O.
    now rewrite D in O. }
  split; [exact L|]. intros D1. rewrite D1. lia.
Qed.

(** C5, amended: when the module hands back a buffer whose length is not
    W*H*4, the engine has room for a buffer of W*H*4 bytes, and the stack
    pointer is restored without a trap, the decoder does not fail: it returns
    W*H*4 bytes that start with the first min(length, W*H*4) bytes of the
    module's buffer and are zero from there on. *)
Theorem decodeASTCTexture_resizes
    (data : Uint8Array) (s s1 : State Hidden) (h : Header) (img : Uint8Array) :
  parseASTCHeader data = Ok h ->
  16 < len data ->
  decode_in_module exports (subarray_from data 16) h s = (Ok img, s1) ->
  len img <> width h * height h * 4 ->
  can_allocate s (width h * height h * 4) = true ->
  (forall inst, exists r inst',
      __wbindgen_add_to_stack_pointer exports 16 inst = (Returns r, inst')) ->
  exists out s2,
    decodeASTCTexture exports data s = (Ok out, s2) /\
    len out = width h * height h * 4 /\
    let m := Z.to_nat (Z.min (len img) (width h * height h * 4)) in
    firstn m out = firstn m img /\
    skipn m out = repeat x00 (Z.to_nat (width h * height h * 4) - m).
Proof.
  intros P L D N A NT.
  destruct (decode_in_module_needs_instance _ _ _ _ _ D) as [R R1].
  pose proof (parsed_size_safe data h P) as [NN SF].
  pose proof (keeps_engine_decode_in_module (subarray_from data 16) h s) as KE.
  rewrite D in KE. cbn [snd] in KE.
  rewrite (decodeASTCTexture_ready data s h R P L).
  destruct (wasm s1) as [inst1|] eqn:E1; [|now elim R1].
  destruct (NT inst1) as (r & inst' & Er).
  unfold try_finally, bind at 1. rewrite D.
  rewrite fit_to_expected_size_eq by assumption.
  replace (len img =? width h * height h * 4) with false
    by (symmetry; now apply Z.eqb_neq).
  rewrite KE, new_typed_array_allocated by (try split; assumption).
  rewrite (restore_stack_returns _ inst1 inst' r) by assumption.
  eexists. eexists. split; [reflexivity|].
  split; [now apply len_pad_or_truncate|].
  pose proof (len_nonneg img) as LI.
  assert (LF : List.length (firstn (Z.to_nat (Z.min (len img) (width h * height h * 4))) img)
               = Z.to_nat (Z.min (len img) (width h * height h * 4))).
  { apply firstn_length_le. unfold len in *. lia. }
  unfold pad_or_truncate. split.
  - rewrite firstn_app, LF, Nat.sub_diag, firstn_firstn, Nat.min_id.
    cbn [firstn]. apply app_nil_r.
  - rewrite skipn_app, LF, Nat.sub_diag. cbn [skipn].
    rewrite <- LF at 1. rewrite skipn_all. cbn [app]. f_equal. lia.
Qed.

(** *** Errors *)

(** C7: a buffer that does not start with the ASTC magic makes the decoder
    throw and leaves the state as it was: the instance is untouched and the
    history has no new call into the module and no new buffer. *)
Theorem decodeASTCTexture_bad_magic (data : Uint8Array) (s : State Hidden) :
  firstn 4 data <> ASTC_MAGIC ->
  exists e, decodeASTCTexture exports data s = (Throw e, s).
Proof.
  intros N.
  destruct (parseASTCHeader data) as [h|e] eqn:P.
  - exfalso. apply N. apply (parseASTCHeader_ok_iff data). now rewrite P.
  - now apply (decodeASTCTexture_parse_throws data s e).
Qed.

(** C10: a buffer of exactly 16 bytes with a valid header has no payload;
    the decoder throws, and the state is as it was: the module was not
    called. *)
Theorem decodeASTCTexture_header_only (data : Uint8Array) (s : State Hidden) (h : Header) :
  len data = 16 -> parseASTCHeader data = Ok h ->
  exists e, decodeASTCTexture exports data s = (Throw e, s) /\
            (e = NoCompressedData \/ e = WasmNotInitialized).
Proof.
  intros L P. rewrite (decodeASTCTexture_empty_payload data s h P L).
  eexists. split; [reflexivity|]. destruct (wasm s); auto.
Qed.

(** *** The depth fields *)

Lemma skipn_ext (a b : list byte) (n : nat) :
  List.length a = List.length b ->
  (forall i, (n <= i)%nat -> nth i a x00 = nth i b x00) ->
  skipn n a = skipn n b.
Proof.
  intros L E. apply (nth_ext _ _ x00 x00).
  - rewrite !length_skipn. lia.
  - intros i _. rewrite !nth_skipn. apply E. lia.
Qed.

Lemma same_but_depth_get (a b : Uint8Array) (i : nat) :
  same_but_depth a b -> i <> 6%nat -> i <> 13%nat -> i <> 14%nat -> i <> 15%nat ->
  a.[i] = b.[i].
Proof.
  intros [_ E] N6 N13 N14 N15. unfold get. now rewrite E.
Qed.

(** The parser reads the depth fields but decides nothing on them. *)
Lemma parseASTCHeader_same_but_depth (a b : Uint8Array) :
  same_but_depth a b ->
  match parseASTCHeader a, parseASTCHeader b with
  | Ok ha, Ok hb =>
      width ha = width hb /\ height ha = height hb /\
      blockWidth ha = blockWidth hb /\ blockHeight ha = blockHeight hb
  | Throw ea, Throw eb => ea = eb
  | _, _ => False
  end.
Proof.
  intros S. rewrite !parseASTCHeader_unfold. cbv zeta.
  assert (L : List.length a = List.length b) by apply S.
  unfold isValidMagic, every, every_from, len. rewrite L.
  rewrite (same_but_depth_get a b 0 S), (same_but_depth_get a b 1 S),
    (same_but_depth_get a b 2 S), (same_but_depth_get a b 3 S),
    (same_but_depth_get a b 4 S), (same_but_depth_get a b 5 S),
    (same_but_depth_get a b 7 S), (same_but_depth_get a b 8 S),
    (same_but_depth_get a b 9 S), (same_but_depth_get a b 10 S),
    (same_but_depth_get a b 11 S), (same_but_depth_get a b 12 S) by lia.
  destruct (Z.of_nat (List.length b) <? 16); [reflexivity|].
  destruct (negb _); [reflexivity|].
  destruct (_ || _); [reflexivity|].
  destruct (_ || _); [reflexivity|].
  cbn. repeat split.
Qed.

(** Only width, height, block width and block height reach the module and
    the sizing of the result. *)
Lemma decode_try_block_fields (c : Uint8Array) (ha hb : Header) :
  width ha = width hb -> height ha = height hb ->
  blockWidth ha = blockWidth hb -> blockHeight ha = blockHeight hb ->
  bind (decode_in_module exports c ha) (fun img => fit_to_expected_size (Hidden := Hidden) ha img)
  = bind (decode_in_module exports c hb) (fun img => fit_to_expected_size hb img).
Proof.
  intros W H BW BH. unfold decode_in_module, fit_to_expected_size.
  rewrite W, H, BW, BH. reflexivity.
Qed.

Lemma decodeASTCTexture_same_but_depth (a b : Uint8Array) (s : State Hidden) :
  same_but_depth a b ->
  decodeASTCTexture exports a s = decodeASTCTexture exports b s.
Proof.
  intros S. pose proof (parseASTCHeader_same_but_depth a b S) as PP.
  destruct (wasm s) as [inst|] eqn:E.
  2:{ now rewrite !decodeASTCTexture_not_ready. }
  assert (R : ready s) by (unfold ready; congruence).
  destruct (parseASTCHeader a) as [ha|ea] eqn:Pa, (parseASTCHeader b) as [hb|eb] eqn:Pb;
    try contradiction.
  - destruct PP as (W & H & BW & BH).
    pose proof (parseASTCHeader_ok_length a ha Pa) as La.
    pose proof (parseASTCHeader_ok_length b hb Pb) as Lb.
    assert (LL : len a = len b) by (unfold len; f_equal; apply S).
    destruct (Z.eq_dec (len a) 16) as [L16|L16].
    + rewrite (decodeASTCTexture_empty_payload a s ha Pa L16).
      rewrite (decodeASTCTexture_empty_payload b s hb Pb) by lia. reflexivity.
    + rewrite (decodeASTCTexture_ready a s ha R Pa) by lia.
      rewrite (decodeASTCTexture_ready b s hb R Pb) by lia.
      rewrite (subarray_from_16 a), (subarray_from_16 b) by lia.
      assert (SK : skipn 16 a = skipn 16 b).
      { destruct S as [SL SE]. apply skipn_ext; [exact SL|].
        intros i Hi. apply SE; lia. }
      rewrite SK.
      now rewrite (decode_try_block_fields _ ha hb W H BW BH).
  - subst eb. unfold decodeASTCTexture. rewrite E. unfold bind, lift.
    now rewrite Pa, Pb.
Qed.

(** C9: two buffers that differ at most in byte 6 and bytes 13-15 are decoded
    alike: both calls throw, or both return the same buffer. *)
Theorem decodeASTCTexture_depth_irrelevant (a b : Uint8Array) (s : State Hidden) :
  same_but_depth a b ->
  (exists ea eb sa sb,
      decodeASTCTexture exports a s = (Throw ea, sa) /\
      decodeASTCTexture exports b s = (Throw eb, sb)) \/
  (exists out sa sb,
      decodeASTCTexture exports a s = (Ok out, sa) /\
      decodeASTCTexture exports b s = (Ok out, sb)).
Proof.
  intros S. rewrite <- (decodeASTCTexture_same_but_depth a b s S).
  destruct (decodeASTCTexture exports a s) as [[out|e] s1].
  - right. now exists out, s1, s1.
  - left. now exists e, e, s1, s1.
Qed.

End DecoderFacts.

(** ** The theorems at work on the small module *)

Lemma decodeASTCTexture_output_length_witness :
  len ([xff; xff; xff; xff] ++ repeat x00 252) = 8 * 8 * 4 /\
  (1 = 1 -> len ([xff; xff; xff; xff] ++ repeat x00 252) = 8 * 8 * 1 * 4).
Proof.
  apply (decodeASTCTexture_output_length Toy.exports
           (Toy.header_8x8 ++ Toy.block) Toy.started
           (snd (decodeASTCTexture Toy.exports (Toy.header_8x8 ++ Toy.block) Toy.started))
           (mkHeader "4x4" 4 4 1 "8x8" 8 8 1 true 16)
           ([xff; xff; xff; xff] ++ repeat x00 252)).
  - vm_compute. reflexivity.
  - vm_compute. reflexivity.
Defined.

(** C1 as stated fails: with depth 2 in the header the decoder still returns
    W*H*4 bytes, here 4 and not 1*1*2*4 = 8. *)
Lemma decodeASTCTexture_ignores_depth :
  parseASTCHeader (Toy.header_1x1x2 ++ Toy.block)
  = Ok (mkHeader "4x4" 4 4 1 "1x1" 1 1 2 true 16) /\
  fst (decodeASTCTexture Toy.exports (Toy.header_1x1x2 ++ Toy.block) Toy.started)
  = Ok [xff; xff; xff; xff] /\
  len [xff; xff; xff; xff] <> 1 * 1 * 2 * 4.
Proof.
  split; [vm_compute; reflexivity|].
  split; [vm_compute; reflexivity|].
  vm_compute. discriminate.
Qed.

Lemma decodeASTCTexture_resizes_witness :
  exists out s2,
    decodeASTCTexture Toy.exports (Toy.header_8x8 ++ Toy.block) Toy.started = (Ok out, s2) /\
    len out = 8 * 8 * 4 /\
    firstn 4 out = [xff; xff; xff; xff] /\
    skipn 4 out = repeat x00 252.
Proof.
  apply (decodeASTCTexture_resizes Toy.exports
           (Toy.header_8x8 ++ Toy.block) Toy.started
           (snd (decode_in_module Toy.exports (subarray_from (Toy.header_8x8 ++ Toy.block) 16)
                   (mkHeader "4x4" 4 4 1 "8x8" 8 8 1 true 16) Toy.started))
           (mkHeader "4x4" 4 4 1 "8x8" 8 8 1 true 16)
           [xff; xff; xff; xff]).
  - vm_compute. reflexivity.
  - vm_compute. reflexivity.
  - vm_compute. reflexivity.
  - vm_compute. discriminate.
  - vm_compute. reflexivity.
  - intros inst. exists 0, inst. reflexivity.
Defined.

(** C5 as stated fails: for a header that declares 16777215 x 16777215
    texels the module's four bytes would have to be copied into a buffer of
    1125899772624900 bytes, which the engine does not allocate: the decoder
    throws the [RangeError] of [new Uint8Array]. *)
Lemma decodeASTCTexture_resize_fails :
  (exists h, parseASTCHeader (Toy.header_huge ++ Toy.block) = Ok h /\
             width h = 16777215 /\ height h = 16777215 /\
             fst (decode_in_module Toy.exports
                    (subarray_from (Toy.header_huge ++ Toy.block) 16) h Toy.started)
             = Ok [xff; xff; xff; xff]) /\
  len [xff; xff; xff; xff] <> 16777215 * 16777215 * 4 /\
  fst (decodeASTCTexture Toy.exports (Toy.header_huge ++ Toy.block) Toy.started)
  = Throw RangeError.
Proof.
  split; [|split].
  - eexists. split; [vm_compute; reflexivity|].
    repeat split; vm_compute; reflexivity.
  - vm_compute. discriminate.
  - vm_compute. reflexivity.
Qed.


Lemma decodeASTCTexture_bad_magic_witness :
  exists e,
    decodeASTCTexture Toy.exports (Toy.header_8x8_no_magic ++ Toy.block) Toy.started
    = (Throw e, Toy.started).
Proof.
  apply (decodeASTCTexture_bad_magic Toy.exports
           (Toy.header_8x8_no_magic ++ Toy.block) Toy.started).
  vm_compute. discriminate.
Defined.

Lemma same_but_depth_headers :
  same_but_depth (Toy.header_8x8 ++ Toy.block) (Toy.header_8x8_deep ++ Toy.block).
Proof.
  split; [reflexivity|]. intros i N6 N13 N14 N15.
  do 16 (destruct i as [|i]; [reflexivity || (exfalso; lia) |]).
  reflexivity.
Defined.

Lemma decodeASTCTexture_depth_irrelevant_witness :
  (exists ea eb sa sb,
      decodeASTCTexture Toy.exports (Toy.header_8x8 ++ Toy.block) Toy.started = (Throw ea, sa) /\
      decodeASTCTexture Toy.exports (Toy.header_8x8_deep ++ Toy.block) Toy.started
      = (Throw eb, sb)) \/
  (exists out sa sb,
      decodeASTCTexture Toy.exports (Toy.header_8x8 ++ Toy.block) Toy.started = (Ok out, sa) /\
      decodeASTCTexture Toy.exports (Toy.header_8x8_deep ++ Toy.block) Toy.started
      = (Ok out, sb)).
Proof.
  apply (decodeASTCTexture_depth_irrelevant Toy.exports
           (Toy.header_8x8 ++ Toy.block) (Toy.header_8x8_deep ++ Toy.block) Toy.started).
  exact same_but_depth_headers.
Defined.

Lemma decodeASTCTexture_header_only_witness :
  exists e, decodeASTCTexture Toy.exports Toy.header_8x8 Toy.started = (Throw e, Toy.started) /\
            (e = NoCompressedData \/ e = WasmNotInitialized).
Proof.
  apply (decodeASTCTexture_header_only Toy.exports Toy.header_8x8 Toy.started
           (mkHeader "4x4" 4 4 1 "8x8" 8 8 1 true 16)).
  - vm_compute. reflexivity.
  - vm_compute. reflexivity.
Defined.

(** ** More on the header parser *)

Lemma byte_of_Z_val (b : byte) : byte_of_Z (byte_val b) = b.
Proof.
  apply byte_val_inj, byte_val_of_Z, byte_val_range.
Qed.

Lemma le24_bytes_le24 (a b c : byte) :
  le24_bytes (le24 (byte_val a) (byte_val b) (byte_val c)) = [a; b; c].
Proof.
  pose proof (byte_val_range a) as Ra. pose proof (byte_val_range b) as Rb.
  pose proof (byte_val_range c) as Rc.
  unfold le24_bytes, le24.
  replace ((byte_val a + 2 ^ 8 * byte_val b + 2 ^ 16 * byte_val c) mod 256)
    with (byte_val a) by (Z.div_mod_to_equations; lia).
  replace ((byte_val a + 2 ^ 8 * byte_val b + 2 ^ 16 * byte_val c) / 256 mod 256)
    with (byte_val b) by (Z.div_mod_to_equations; lia).
  replace ((byte_val a + 2 ^ 8 * byte_val b + 2 ^ 16 * byte_val c) / 65536 mod 256)
    with (byte_val c) by (Z.div_mod_to_equations; lia).
  now rewrite !byte_of_Z_val.
Qed.

(** The dimensions the decoder passes to the module are their own 32-bit
    values. *)
Lemma parsed_int32 (data : Uint8Array) (h : Header) :
  parseASTCHeader data = Ok h ->
  JS.ToInt32 (width h) = width h /\ JS.ToInt32 (height h) = height h /\
  JS.ToInt32 (blockWidth h) = blockWidth h /\ JS.ToInt32 (blockHeight h) = blockHeight h.
Proof.
  intros P. rewrite (parseASTCHeader_fields data h P). cbn.
  pose proof (get_range data 4). pose proof (get_range data 5).
  pose proof (le24_range _ _ _ (get_range data 7) (get_range data 8) (get_range data 9)).
  pose proof (le24_range _ _ _ (get_range data 10) (get_range data 11) (get_range data 12)).
  repeat split; apply ToInt32_small; lia.
Qed.

(** X1: the fields of a parsed header are in range: block width and height
    in 1..255, block depth in 0..255, width and height in 1..2^24-1, depth in
    0..2^24-1. The signed 32-bit operators never produce a negative
    dimension. *)
Theorem parseASTCHeader_ranges (data : Uint8Array) (h : Header) :
  parseASTCHeader data = Ok h ->
  1 <= blockWidth h <= 255 /\ 1 <= blockHeight h <= 255 /\
  0 <= blockDepth h <= 255 /\
  1 <= width h < 2 ^ 24 /\ 1 <= height h < 2 ^ 24 /\ 0 <= depth h < 2 ^ 24.
Proof.
  intros P.
  assert (OK : is_ok (parseASTCHeader data) = true) by now rewrite P.
  apply parseASTCHeader_ok_iff in OK. destruct OK as (_ & _ & N4 & N5 & NW & NH).
  rewrite (parseASTCHeader_fields data h P). cbn.
  pose proof (get_range data 4). pose proof (get_range data 5).
  pose proof (get_range data 6).
  pose proof (le24_range _ _ _ (get_range data 7) (get_range data 8) (get_range data 9)).
  pose proof (le24_range _ _ _ (get_range data 10) (get_range data 11) (get_range data 12)).
  pose proof (le24_range _ _ _ (get_range data 13) (get_range data 14) (get_range data 15)).
  lia.
Qed.


Lemma parseASTCHeader_ranges_witness :
  1 <= 4 <= 255 /\ 1 <= 4 <= 255 /\ 0 <= 1 <= 255 /\
  1 <= 8 < 2 ^ 24 /\ 1 <= 8 < 2 ^ 24 /\ 0 <= 1 < 2 ^ 24.
Proof.
  apply (parseASTCHeader_ranges Toy.header_8x8 (mkHeader "4x4" 4 4 1 "8x8" 8 8 1 true 16)).
  vm_compute. reflexivity.
Defined.

Lemma get_firstn (data : Uint8Array) (n i : nat) :
  (i < n)%nat -> (firstn n data).[i] = data.[i].
Proof.
  intros L. unfold get. rewrite nth_firstn.
  now replace (i <? n)%nat with true by (symmetry; apply Nat.ltb_lt; exact L).
Qed.

(** X2: the parser looks at the first 16 bytes only: the payload that
    follows the header changes neither the record nor the error. *)
Theorem parseASTCHeader_header_only (data : Uint8Array) :
  parseASTCHeader (firstn 16 data) = parseASTCHeader data.
Proof.
  destruct (Nat.le_gt_cases (List.length data) 16) as [S|L].
  { now rewrite firstn_all2. }
  rewrite !parseASTCHeader_unfold. cbv zeta.
  unfold isValidMagic, every, every_from.
  rewrite !get_firstn by lia.
  assert (L16 : len (firstn 16 data) = 16).
  { unfold len. rewrite firstn_length_le by lia. reflexivity. }
  rewrite L16.
  replace (len data <? 16) with false by (symmetry; apply Z.ltb_ge; unfold len; lia).
  reflexivity.
Qed.

Ltac sort_out :=
  repeat split; intros;
  repeat match goal with
         | H : _ /\ _ |- _ => destruct H
         | H : _ \/ _ |- _ => destruct H
         end;
  subst; try discriminate; try contradiction; try lia; try congruence; auto.

(** X3: the error tells which check failed, and the checks come in the order
    length, magic, image dimensions, block dimensions: a header with both a
    zero width and a zero block width reports the image dimensions. *)
Theorem parseASTCHeader_error_order (data : Uint8Array) :
  (forall n, parseASTCHeader data = Throw (HeaderTooShort n) <->
             len data < 16 /\ n = List.length data) /\
  (parseASTCHeader data = Throw InvalidMagic <->
     16 <= len data /\ firstn 4 data <> ASTC_MAGIC) /\
  (parseASTCHeader data = Throw InvalidImageDimensions <->
     16 <= len data /\ firstn 4 data = ASTC_MAGIC /\
     (le24 data.[7] data.[8] data.[9] = 0 \/ le24 data.[10] data.[11] data.[12] = 0)) /\
  (parseASTCHeader data = Throw InvalidBlockDimensions <->
     16 <= len data /\ firstn 4 data = ASTC_MAGIC /\
     le24 data.[7] data.[8] data.[9] <> 0 /\ le24 data.[10] data.[11] data.[12] <> 0 /\
     (data.[4] = 0 \/ data.[5] = 0)).
Proof.
  rewrite parseASTCHeader_unfold. cbv zeta.
  destruct (len data <? 16) eqn:L.
  { apply Z.ltb_lt in L. sort_out. }
  apply Z.ltb_ge in L.
  pose proof (isValidMagic_firstn data L) as Hm.
  destruct (isValidMagic data); cbn [negb].
  2:{ assert (NM : firstn 4 data <> ASTC_MAGIC)
        by (intros E; apply Hm in E; discriminate).
      sort_out. }
  assert (M : firstn 4 data = ASTC_MAGIC) by now apply Hm.
  destruct (le24 data.[7] data.[8] data.[9] =? 0) eqn:W; cbn [orb];
    [apply Z.eqb_eq in W; sort_out | apply Z.eqb_neq in W].
  destruct (le24 data.[10] data.[11] data.[12] =? 0) eqn:H;
    [apply Z.eqb_eq in H; sort_out | apply Z.eqb_neq in H].
  destruct (data.[4] =? 0) eqn:BW; cbn [orb];
    [apply Z.eqb_eq in BW; sort_out | apply Z.eqb_neq in BW].
  destruct (data.[5] =? 0) eqn:BH;
    [apply Z.eqb_eq in BH; sort_out | apply Z.eqb_neq in BH].
  sort_out.
Qed.

(** X4: encoding a parsed header gives back the 16 bytes it was parsed from:
    the record determines the whole header, the magic included. *)
Theorem encodeHeader_parseASTCHeader (data : Uint8Array) (h : Header) :
  parseASTCHeader data = Ok h -> encodeHeader h = firstn 16 data.
Proof.
  intros P.
  assert (OK : is_ok (parseASTCHeader data) = true) by now rewrite P.
  apply parseASTCHeader_ok_iff in OK. destruct OK as (L & M & _).
  rewrite (parseASTCHeader_fields data h P). unfold encodeHeader. cbn [blockWidth
    blockHeight blockDepth width height depth].
  unfold len in L.
  do 16 (destruct data as [|? data]; [cbn [List.length] in L; lia|]).
  cbn [firstn] in M |- *. rewrite <- M.
  unfold get. cbn [nth]. rewrite !byte_of_Z_val, !le24_bytes_le24. reflexivity.
Qed.

Lemma encodeHeader_parseASTCHeader_witness :
  encodeHeader (mkHeader "4x4" 4 4 1 "8x8" 8 8 1 true 16)
  = firstn 16 (Toy.header_8x8 ++ Toy.block).
Proof.
  apply (encodeHeader_parseASTCHeader (Toy.header_8x8 ++ Toy.block)).
  vm_compute. reflexivity.
Defined.

(** ** Moving bytes into and out of the module's memory *)

Lemma typed_set_fits (target source : list byte) (offset : Z) :
  0 <= offset -> offset + len source <= len target ->
  typed_set target source offset
  = Ok (firstn (Z.to_nat offset) target ++ source
        ++ skipn (Z.to_nat offset + List.length source) target).
Proof.
  intros O F. unfold typed_set.
  replace (offset <? 0) with false by (symmetry; apply Z.ltb_ge; lia).
  now replace (len target <? offset + len source) with false
    by (symmetry; apply Z.ltb_ge; lia).
Qed.

Lemma typed_set_overflows (target source : list byte) (offset : Z) :
  len target < offset + len source -> typed_set target source offset = Throw RangeError.
Proof.
  intros F. unfold typed_set.
  replace (len target <? offset + len source) with true by (symmetry; apply Z.ltb_lt; lia).
  now rewrite orb_true_r.
Qed.

Lemma length_spliced (target source : list byte) (o : nat) :
  (o + List.length source <= List.length target)%nat ->
  List.length (firstn o target ++ source ++ skipn (o + List.length source) target)
  = List.length target.
Proof.
  intros fits. rewrite !length_app, length_firstn, length_skipn. lia.
Qed.

Lemma window_spliced (target source : list byte) (o : nat) :
  (o + List.length source <= List.length target)%nat ->
  firstn (List.length source)
    (skipn o (firstn o target ++ source ++ skipn (o + List.length source) target))
  = source.
Proof.
  intros fits.
  assert (LF : List.length (firstn o target) = o) by (apply firstn_length_le; lia).
  rewrite skipn_app, LF, Nat.sub_diag. cbn [skipn].
  rewrite <- LF at 1. rewrite skipn_all. cbn [app].
  rewrite firstn_app, Nat.sub_diag. cbn [firstn].
  now rewrite firstn_all, app_nil_r.
Qed.

Lemma nth_spliced_outside (target source : list byte) (o i : nat) :
  (o + List.length source <= List.length target)%nat ->
  (i < o \/ o + List.length source <= i)%nat ->
  nth i (firstn o target ++ source ++ skipn (o + List.length source) target) x00
  = nth i target x00.
Proof.
  intros fits [B|A].
  - rewrite app_nth1 by (rewrite firstn_length_le; lia).
    rewrite nth_firstn.
    now replace (i <? o)%nat with true by (symmetry; apply Nat.ltb_lt; exact B).
  - assert (LF : List.length (firstn o target) = o) by (apply firstn_length_le; lia).
    rewrite app_nth2 by lia. rewrite app_nth2 by lia.
    rewrite nth_skipn, LF. f_equal. lia.
Qed.

Section Marshalling.

Context {Hidden : Type} (exports : Exports Hidden).

Lemma ToUint32_range (z : Z) : 0 <= JS.ToUint32 z < 2 ^ 32.
Proof. unfold JS.ToUint32. apply Z.mod_pos_bound. lia. Qed.

Lemma ushr_0 (z : Z) : JS.ushr z 0 = JS.ToUint32 z.
Proof. unfold JS.ushr. reflexivity. Qed.

Lemma bind_ok {A B} (m : M Hidden A) (k : A -> M Hidden B)
    (s s' : State Hidden) (b : B) :
  bind m k s = (Ok b, s') -> exists a s1, m s = (Ok a, s1) /\ k a s1 = (Ok b, s').
Proof.
  unfold bind. destruct (m s) as [[a|e] s1]; [eauto | discriminate].
Qed.

Lemma typed_set_ok (target source result : list byte) (offset : Z) :
  typed_set target source offset = Ok result ->
  0 <= offset /\ offset + len source <= len target /\
  result = firstn (Z.to_nat offset) target ++ source
           ++ skipn (Z.to_nat offset + List.length source) target.
Proof.
  unfold typed_set.
  destruct (offset <? 0) eqn:O; [discriminate|].
  destruct (len target <? offset + len source) eqn:F; [discriminate|].
  apply Z.ltb_ge in O, F. cbn. intros E. inversion E. auto.
Qed.

(** The run of [passArray8ToWasm0] up to the store, when the cached byte
    view is not one of an earlier instance. *)
Lemma passArray8ToWasm0_unfold
    (arg : Uint8Array) (s : State Hidden) (inst inst1 : Instance Hidden) (p : Z) :
  wasm s = Some inst ->
  old_bytes (cachedUint8Memory0 s) (old_buffers s) = None ->
  __wbindgen_malloc exports (JS.ToInt32 (len arg)) 1 inst = (Returns p, inst1) ->
  passArray8ToWasm0 arg (wasm_malloc exports) s
  = match typed_set (memory inst1) arg (JS.ToUint32 (JS.ToInt32 p)) with
    | Ok mem' =>
        (Ok (JS.ToUint32 (JS.ToInt32 p)),
         mkState (Some (mkInstance mem' (hidden inst1))) ViewOfMemory
                 (cachedInt32Memory0 s) (len arg) (old_buffers s) (can_allocate s)
                 (CallMalloc (JS.ToInt32 (len arg)) 1 :: history s))
    | Throw e =>
        (Throw e,
         mkState (Some inst1) ViewOfMemory (cachedInt32Memory0 s)
                 (WASM_VECTOR_LEN s) (old_buffers s) (can_allocate s)
                 (CallMalloc (JS.ToInt32 (len arg)) 1 :: history s))
    end.
Proof.
  intros E Fr Em. unfold passArray8ToWasm0, wasm_malloc, bind, invoke, ret.
  rewrite E, Z.mul_1_r. change (JS.ToInt32 1) with 1. rewrite Em.
  unfold getUint8Memory0. cbn [wasm cachedUint8Memory0 old_buffers]. rewrite Fr.
  rewrite ushr_0, Z.div_1_r. unfold lift.
  destruct (typed_set _ _ _); reflexivity.
Qed.

(** X5: when the cached byte view is not a view of an earlier instance's
    memory, the allocator returns [p] and the argument fits into the memory
    at [p] (read as unsigned), [passArray8ToWasm0] returns that pointer, sets
    [WASM_VECTOR_LEN] to the length of the argument, and leaves a memory of
    the same size that holds the argument at the pointer and is unchanged
    everywhere else. *)
Theorem passArray8ToWasm0_stores
    (arg : Uint8Array) (s : State Hidden) (inst inst1 : Instance Hidden) (p : Z) :
  wasm s = Some inst ->
  old_bytes (cachedUint8Memory0 s) (old_buffers s) = None ->
  __wbindgen_malloc exports (JS.ToInt32 (len arg)) 1 inst = (Returns p, inst1) ->
  JS.ToUint32 (JS.ToInt32 p) + len arg <= len (memory inst1) ->
  exists mem',
    passArray8ToWasm0 arg (wasm_malloc exports) s
    = (Ok (JS.ToUint32 (JS.ToInt32 p)),
       mkState (Some (mkInstance mem' (hidden inst1))) ViewOfMemory
               (cachedInt32Memory0 s) (len arg) (old_buffers s) (can_allocate s)
               (CallMalloc (JS.ToInt32 (len arg)) 1 :: history s)) /\
    len mem' = len (memory inst1) /\
    window mem' (JS.ToUint32 (JS.ToInt32 p), len arg) = arg /\
    forall i : nat,
      Z.of_nat i < JS.ToUint32 (JS.ToInt32 p) \/
      JS.ToUint32 (JS.ToInt32 p) + len arg <= Z.of_nat i ->
      nth i mem' x00 = nth i (memory inst1) x00.
Proof.
  intros E Fr Em F. pose proof (ToUint32_range (JS.ToInt32 p)) as R.
  set (ptr := JS.ToUint32 (JS.ToInt32 p)) in *.
  rewrite (passArray8ToWasm0_unfold arg s inst inst1 p E Fr Em). fold ptr.
  rewrite typed_set_fits by lia.
  assert (Fn : (Z.to_nat ptr + List.length arg <= List.length (memory inst1))%nat)
    by (unfold len in F; lia).
  eexists. split; [reflexivity|]. split; [|split].
  - unfold len. now rewrite length_spliced.
  - unfold window, len. cbn [fst snd]. rewrite Nat2Z.id.
    now apply window_spliced.
  - intros i Hi. apply nth_spliced_outside; [exact Fn|]. unfold len in Hi. lia.
Qed.

(** X6: when the cached byte view is not a view of an earlier instance's
    memory and the argument does not fit into the memory at the pointer the
    allocator returned, [passArray8ToWasm0] throws a [RangeError] after the
    allocation: the memory is as the allocator left it and [WASM_VECTOR_LEN]
    keeps its old value. *)
Theorem passArray8ToWasm0_overflows
    (arg : Uint8Array) (s : State Hidden) (inst inst1 : Instance Hidden) (p : Z) :
  wasm s = Some inst ->
  old_bytes (cachedUint8Memory0 s) (old_buffers s) = None ->
  __wbindgen_malloc exports (JS.ToInt32 (len arg)) 1 inst = (Returns p, inst1) ->
  len (memory inst1) < JS.ToUint32 (JS.ToInt32 p) + len arg ->
  passArray8ToWasm0 arg (wasm_malloc exports) s
  = (Throw RangeError,
     mkState (Some inst1) ViewOfMemory (cachedInt32Memory0 s)
             (WASM_VECTOR_LEN s) (old_buffers s) (can_allocate s)
             (CallMalloc (JS.ToInt32 (len arg)) 1 :: history s)).
Proof.
  intros E Fr Em F. rewrite (passArray8ToWasm0_unfold arg s inst inst1 p E Fr Em).
  now rewrite typed_set_overflows.
Qed.

Lemma nth_replace_buffer (buffers : list (list byte)) (index : nat) (bytes : list byte) :
  (index < List.length buffers)%nat ->
  nth index (replace_buffer buffers index bytes) [] = bytes.
Proof.
  revert index. induction buffers as [|b rest IH]; intros [|index] L;
    cbn [List.length] in L; try lia; cbn [replace_buffer nth]; [reflexivity|].
  apply IH. lia.
Qed.

Lemma old_bytes_some (view : CachedView) (buffers : list (list byte)) (bytes : list byte) :
  old_bytes view buffers = Some bytes ->
  exists buffer, view = ViewOfOld buffer /\ nth buffer buffers [] = bytes /\
                 bytes <> [] /\ (buffer < List.length buffers)%nat.
Proof.
  unfold old_bytes. destruct view as [| |buffer]; try discriminate.
  destruct (nth buffer buffers []) as [|x bytes'] eqn:N; [discriminate|].
  intros E. inversion E. subst bytes. exists buffer.
  split; [reflexivity|]. split; [exact N|]. split; [discriminate|].
  destruct (Nat.lt_ge_cases buffer (List.length buffers)) as [L|G]; [exact L|].
  rewrite nth_overflow in N by exact G. discriminate N.
Qed.

(** X19: when the cached byte view is still a view of an earlier instance's
    memory, as it is after [initASTCDecoder] has run again, the argument is
    stored into that old memory and the memory of the current instance is
    exactly as its allocator left it. *)
Theorem passArray8ToWasm0_stale_view
    (arg : Uint8Array) (s : State Hidden) (inst inst1 : Instance Hidden) (p : Z)
    (buffer : nat) (old : list byte) :
  wasm s = Some inst ->
  cachedUint8Memory0 s = ViewOfOld buffer ->
  nth buffer (old_buffers s) [] = old -> old <> [] ->
  __wbindgen_malloc exports (JS.ToInt32 (len arg)) 1 inst = (Returns p, inst1) ->
  JS.ToUint32 (JS.ToInt32 p) + len arg <= len old ->
  exists old',
    passArray8ToWasm0 arg (wasm_malloc exports) s
    = (Ok (JS.ToUint32 (JS.ToInt32 p)),
       mkState (Some inst1) (ViewOfOld buffer) (cachedInt32Memory0 s) (len arg)
               (replace_buffer (old_buffers s) buffer old') (can_allocate s)
               (CallMalloc (JS.ToInt32 (len arg)) 1 :: history s)) /\
    window old' (JS.ToUint32 (JS.ToInt32 p), len arg) = arg.
Proof.
  intros E C N NE Em F. pose proof (ToUint32_range (JS.ToInt32 p)) as R.
  assert (OB : old_bytes (cachedUint8Memory0 s) (old_buffers s) = Some old).
  { rewrite C. unfold old_bytes. rewrite N. destruct old; [now elim NE | reflexivity]. }
  unfold passArray8ToWasm0, wasm_malloc, bind, invoke, ret.
  rewrite E, Z.mul_1_r. change (JS.ToInt32 1) with 1. rewrite Em.
  unfold getUint8Memory0. cbn [wasm cachedUint8Memory0 old_buffers]. rewrite OB.
  rewrite ushr_0, Z.div_1_r. unfold lift. rewrite typed_set_fits by lia.
  unfold write_memory, set_WASM_VECTOR_LEN.
  cbn [wasm cachedUint8Memory0 cachedInt32Memory0 old_buffers WASM_VECTOR_LEN
       can_allocate history].
  rewrite C, <- C, OB, C.
  eexists. split; [reflexivity|].
  unfold window, len. cbn [fst snd]. rewrite Nat2Z.id.
  apply window_spliced. unfold len in F. lia.
Qed.

Lemma subarray_inside (mem : list byte) (ptr l : Z) :
  0 <= ptr -> 0 <= l -> ptr + l <= len mem ->
  subarray mem ptr (ptr + l) = window mem (ptr, l).
Proof.
  intros P L F. unfold subarray, subarray_bounds.
  replace (ptr <? 0) with false by (symmetry; apply Z.ltb_ge; lia).
  replace (ptr + l <? 0) with false by (symmetry; apply Z.ltb_ge; lia).
  rewrite (Z.min_l ptr), (Z.min_l (ptr + l)) by lia.
  f_equal. f_equal. lia.
Qed.

(** [getArrayU8FromWasm0] once the bytes of the view are known. *)
Lemma getArrayU8FromWasm0_of_view
    (ptr l : Number) (s s' : State Hidden) (bytes : list byte) :
  getUint8Memory0 s = (Ok bytes, s') ->
  getArrayU8FromWasm0 ptr l s
  = (Ok (subarray bytes (JS.ToUint32 (number_or_0 ptr))
           (match l with
            | Some n => JS.ToUint32 (number_or_0 ptr) + n
            | None => 0
            end)), s').
Proof.
  intros G. unfold getArrayU8FromWasm0, bind, ret. rewrite G.
  now rewrite ushr_0, Z.div_1_r.
Qed.

Lemma getUint8Memory0_fresh (s : State Hidden) (inst : Instance Hidden) :
  wasm s = Some inst ->
  old_bytes (cachedUint8Memory0 s) (old_buffers s) = None ->
  getUint8Memory0 s
  = (Ok (memory inst),
     mkState (wasm s) ViewOfMemory (cachedInt32Memory0 s) (WASM_VECTOR_LEN s)
             (old_buffers s) (can_allocate s) (history s)).
Proof.
  intros E Fr. unfold getUint8Memory0. now rewrite Fr, E.
Qed.

(** X7: when the cached byte view is not a view of an earlier instance's
    memory, [getArrayU8FromWasm0(ptr, len)] for a pointer and a length inside
    the memory is the [len] bytes at [ptr]; nothing changes but the cached
    view, which is now one of the memory. *)
Theorem getArrayU8FromWasm0_inside
    (ptr l : Z) (s : State Hidden) (inst : Instance Hidden) :
  wasm s = Some inst ->
  old_bytes (cachedUint8Memory0 s) (old_buffers s) = None ->
  0 <= ptr -> 0 <= l -> ptr + l <= len (memory inst) -> ptr < 2 ^ 32 ->
  getArrayU8FromWasm0 (Some ptr) (Some l) s
  = (Ok (window (memory inst) (ptr, l)),
     mkState (wasm s) ViewOfMemory (cachedInt32Memory0 s) (WASM_VECTOR_LEN s)
             (old_buffers s) (can_allocate s) (history s)) /\
  len (window (memory inst) (ptr, l)) = l.
Proof.
  intros E Fr P L F U. split.
  - rewrite (getArrayU8FromWasm0_of_view _ _ s _ _ (getUint8Memory0_fresh s inst E Fr)).
    cbn [number_or_0]. unfold JS.ToUint32. rewrite Z.mod_small by lia.
    now rewrite subarray_inside.
  - unfold window, len in *. cbn [fst snd].
    rewrite firstn_length_le; [lia|]. rewrite length_skipn. lia.
Qed.

Lemma len_window (bytes : list byte) (b n : Z) :
  len (window bytes (b, n)) <= Z.max n 0 /\
  (0 <= b -> len (window bytes (b, n)) <= Z.max (len bytes - b) 0).
Proof.
  unfold window, len. cbn [fst snd]. rewrite length_firstn, length_skipn. lia.
Qed.

(** X8: with an instantiated module, whatever pointer and length it is given
    (numbers or [undefined]), [getArrayU8FromWasm0] does not throw and calls
    nothing; the view is no longer than a non-negative length asked for and
    is empty when the length is [undefined]; and when the cached byte view is
    not a view of an earlier instance's memory, it is no longer than the
    memory. *)
Theorem getArrayU8FromWasm0_clamped
    (ptr l : Number) (s : State Hidden) (inst : Instance Hidden) :
  wasm s = Some inst ->
  exists view s',
    getArrayU8FromWasm0 ptr l s = (Ok view, s') /\
    wasm s' = wasm s /\ history s' = history s /\
    (forall n, l = Some n -> 0 <= n -> len view <= n) /\
    (l = None -> view = []) /\
    (old_bytes (cachedUint8Memory0 s) (old_buffers s) = None ->
     len view <= len (memory inst)).
Proof.
  intros E.
  assert (G : exists bytes s',
             getUint8Memory0 s = (Ok bytes, s') /\ wasm s' = wasm s /\
             history s' = history s /\
             (old_bytes (cachedUint8Memory0 s) (old_buffers s) = None ->
              bytes = memory inst)).
  { unfold getUint8Memory0.
    destruct (old_bytes (cachedUint8Memory0 s) (old_buffers s)) as [bytes|].
    - exists bytes, s. repeat split. discriminate.
    - rewrite E. eexists. eexists. repeat split. }
  destruct G as (bytes & s' & G & W & H & Fr).
  rewrite (getArrayU8FromWasm0_of_view ptr l s s' bytes G).
  eexists. eexists. split; [reflexivity|]. split; [exact W|]. split; [exact H|].
  pose proof (ToUint32_range (number_or_0 ptr)) as R.
  set (p := JS.ToUint32 (number_or_0 ptr)) in *.
  pose proof (len_nonneg bytes) as LM.
  unfold subarray, subarray_bounds.
  replace (p <? 0) with false by (symmetry; apply Z.ltb_ge; lia).
  split; [|split].
  - intros n -> Hn.
    replace (p + n <? 0) with false by (symmetry; apply Z.ltb_ge; lia).
    match goal with |- len (window _ (?b, ?m)) <= _ =>
      destruct (len_window bytes b m) as [W1 _] end. lia.
  - intros ->. cbn [Z.ltb Z.compare].
    unfold window. cbn [fst snd].
    replace (Z.max (Z.min 0 (len bytes) - Z.min p (len bytes)) 0) with 0 by lia.
    reflexivity.
  - intros F. rewrite <- (Fr F).
    match goal with |- len (window _ (?b, ?n)) <= _ =>
      destruct (len_window bytes b n) as [_ W2]; specialize (W2 ltac:(lia)) end. lia.
Qed.

(** After a store through the byte view, the view shows what was stored. *)
Lemma getUint8Memory0_after_store (s s1 s2 : State Hidden) (bytes mem' : list byte) :
  getUint8Memory0 s = (Ok bytes, s1) ->
  List.length mem' = List.length bytes ->
  write_memory mem' s1 = (Ok tt, s2) ->
  forall n,
    getUint8Memory0
      (mkState (wasm s2) (cachedUint8Memory0 s2) (cachedInt32Memory0 s2) n
               (old_buffers s2) (can_allocate s2) (history s2))
    = (Ok mem',
       mkState (wasm s2) (cachedUint8Memory0 s2) (cachedInt32Memory0 s2) n
               (old_buffers s2) (can_allocate s2) (history s2)).
Proof.
  unfold getUint8Memory0 at 1. intros G L W n.
  destruct (old_bytes (cachedUint8Memory0 s) (old_buffers s)) as [old|] eqn:OB.
  - inversion G; subst old s1; clear G.
    destruct (old_bytes_some _ _ _ OB) as (buffer & C & N & NE & Lb).
    assert (NE' : mem' <> []).
    { intros ->. destruct bytes; [now elim NE | discriminate L]. }
    unfold write_memory in W. rewrite OB, C in W. inversion W; subst s2; clear W.
    unfold getUint8Memory0. cbn [cachedUint8Memory0 old_buffers].
    unfold old_bytes. rewrite nth_replace_buffer by exact Lb.
    destruct mem'; [now elim NE' | reflexivity].
  - destruct (wasm s) as [inst|] eqn:E; [|discriminate G].
    inversion G; subst bytes s1; clear G.
    unfold write_memory in W.
    cbn [cachedUint8Memory0 old_buffers wasm cachedInt32Memory0 WASM_VECTOR_LEN
         can_allocate history] in W.
    inversion W; subst s2; clear W.
    unfold getUint8Memory0. cbn. reflexivity.
Qed.

(** X9: what [passArray8ToWasm0] stores, [getArrayU8FromWasm0] reads back:
    whenever the store returns, a read with the pointer it returned and the
    length [WASM_VECTOR_LEN] gives the argument, whichever buffer the cached
    view is on. *)
Theorem passArray8ToWasm0_getArrayU8FromWasm0
    (arg : Uint8Array) (s s' : State Hidden) (ptr : Z) :
  passArray8ToWasm0 arg (wasm_malloc exports) s = (Ok ptr, s') ->
  getArrayU8FromWasm0 (Some ptr) (Some (WASM_VECTOR_LEN s')) s' = (Ok arg, s').
Proof.
  intros Run. unfold passArray8ToWasm0 in Run.
  apply bind_ok in Run. destruct Run as (p & s1 & _ & Run).
  apply bind_ok in Run. destruct Run as (bytes & s2 & G & Run).
  apply bind_ok in Run. destruct Run as (mem' & s3 & T & Run).
  inversion T as [T']; subst s3; clear T.
  apply typed_set_ok in T'. destruct T' as (O & F & ->).
  apply bind_ok in Run. destruct Run as ([] & s4 & W & Run).
  apply bind_ok in Run. destruct Run as ([] & s5 & V & Run).
  inversion V; subst s5; clear V. inversion Run; subst ptr s'; clear Run.
  rewrite ushr_0, Z.div_1_r in *.
  pose proof (ToUint32_range p) as R. set (q := JS.ToUint32 p) in *.
  assert (Fn : (Z.to_nat q + List.length arg <= List.length bytes)%nat)
    by (unfold len in F; lia).
  rewrite (getArrayU8FromWasm0_of_view _ _ _ _ _
             (getUint8Memory0_after_store s1 s2 s4 bytes _ G
                (length_spliced bytes arg (Z.to_nat q) Fn) W (len arg))).
  cbn [number_or_0 WASM_VECTOR_LEN]. unfold JS.ToUint32. fold (JS.ToUint32 p). fold q.
  rewrite Z.mod_small by lia.
  rewrite subarray_inside; try lia.
  - unfold window, len. cbn [fst snd]. rewrite Nat2Z.id.
    now rewrite window_spliced.
  - apply len_nonneg.
  - unfold len. rewrite length_spliced by exact Fn. unfold len in F. lia.
Qed.

End Marshalling.

(** ** The calls the decoder makes *)

Section DecoderProtocol.

Context {Hidden : Type} (exports : Exports Hidden).

(** *** Steps only add to the history *)

Lemma grows_bind {A B} (m : M Hidden A) (k : A -> M Hidden B) :
  grows m -> (forall a, grows (k a)) -> grows (bind m k).
Proof.
  intros Hm Hk s. unfold bind. destruct (Hm s) as [ev1 E1].
  destruct (m s) as [[a|e] s1]; cbn [snd] in *.
  - destruct (Hk a s1) as [ev2 E2]. exists (ev2 ++ ev1).
    now rewrite E2, E1, app_assoc.
  - now exists ev1.
Qed.

Lemma grows_after {A B} (m : M Hidden A) (k : A -> M Hidden B) (s : State Hidden) :
  (forall a, grows (k a)) ->
  exists events, history (snd (bind m k s)) = events ++ history (snd (m s)).
Proof.
  intros Hk. unfold bind. destruct (m s) as [[a|e] s1]; cbn [snd].
  - apply Hk.
  - now exists [].
Qed.

Lemma grows_quiet {A} (m : M Hidden A) :
  (forall s, history (snd (m s)) = history s) -> grows m.
Proof. intros St s. exists []. now rewrite St. Qed.

Lemma grows_invoke {A} (ev : Event) (f : Instance Hidden -> Outcome A * Instance Hidden) :
  grows (invoke ev f).
Proof.
  intros s. unfold invoke. destruct (wasm s) as [inst|]; [|now exists []].
  destruct (f inst) as [r inst']. now exists [ev].
Qed.

Lemma grows_record (ev : Event) : grows (Hidden := Hidden) (record ev).
Proof. intros s. now exists [ev]. Qed.

Lemma grows_write_memory (mem : list byte) : grows (Hidden := Hidden) (write_memory mem).
Proof.
  apply grows_quiet. intros s. unfold write_memory.
  destruct (cachedUint8Memory0 s); try destruct (old_bytes _ _); now destruct (wasm s).
Qed.

Lemma grows_getUint8Memory0 : grows (Hidden := Hidden) getUint8Memory0.
Proof.
  apply grows_quiet. intros s. unfold getUint8Memory0.
  destruct (old_bytes _ _); [reflexivity|]. now destruct (wasm s).
Qed.

Lemma grows_getInt32Memory0 : grows (Hidden := Hidden) getInt32Memory0.
Proof.
  apply grows_quiet. intros s. unfold getInt32Memory0.
  destruct (old_bytes _ _); [reflexivity|]. now destruct (wasm s).
Qed.

Lemma grows_new_Uint8Array (n : Z) : grows (Hidden := Hidden) (new_Uint8Array n).
Proof.
  intros s. unfold new_Uint8Array.
  destruct (new_typed_array _ _); [now exists [NewUint8Array n] | now exists []].
Qed.

Ltac grow :=
  repeat first
    [ apply grows_invoke | apply grows_getUint8Memory0 | apply grows_getInt32Memory0
    | apply grows_write_memory | apply grows_new_Uint8Array
    | apply grows_record | apply grows_quiet; reflexivity
    | apply grows_bind; [|intros ?] ].

Lemma grows_fit_to_expected_size (header : Header) (decodedImage : Uint8Array) :
  grows (Hidden := Hidden) (fit_to_expected_size header decodedImage).
Proof.
  unfold fit_to_expected_size. destruct (negb _); grow.
Qed.

Lemma grows_wasm_add_to_stack_pointer (delta : Z) :
  grows (wasm_add_to_stack_pointer exports delta).
Proof. unfold wasm_add_to_stack_pointer. grow. Qed.

(** Everything in the [try] block after the first call. *)
Lemma grows_try_block (compressedData : Uint8Array) (header : Header) (s : State Hidden) :
  exists events,
    history (snd (bind (decode_in_module exports compressedData header)
                       (fun img => fit_to_expected_size header img) s))
    = events
      ++ history (snd (wasm_add_to_stack_pointer exports (-16) s)).
Proof.
  destruct (grows_after (decode_in_module exports compressedData header)
              (fun img => fit_to_expected_size header img) s
              (grows_fit_to_expected_size header)) as [ev2 E2].
  assert (E1 : exists events,
             history (snd (decode_in_module exports compressedData header s))
             = events ++ history (snd (wasm_add_to_stack_pointer exports (-16) s))).
  { unfold decode_in_module. apply grows_after. intros returnPointer.
    unfold passArray8ToWasm0, wasm_malloc, wasm_astcDecode, wasm_free,
      getArrayU8FromWasm0.
    grow. }
  destruct E1 as [ev1 E1]. exists (ev2 ++ ev1). now rewrite E2, E1, app_assoc.
Qed.

Lemma wasm_add_to_stack_pointer_history (delta : Z) (s : State Hidden) :
  ready s ->
  history (snd (wasm_add_to_stack_pointer exports delta s))
  = CallAddToStackPointer (JS.ToInt32 delta) :: history s.
Proof.
  intros R. unfold wasm_add_to_stack_pointer, bind, invoke.
  destruct (wasm s) as [inst|] eqn:E; [|now elim R].
  destruct (__wbindgen_add_to_stack_pointer exports (JS.ToInt32 delta) inst)
    as [[r|code] inst']; reflexivity.
Qed.

(** Around the [try] block the history gains the reservation of the stack
    slot first and its release last. *)
Lemma try_block_history (c : Uint8Array) (h : Header) (s : State Hidden) :
  ready s -> 0 <= width h * height h * 4 ->
  exists events,
    history (snd (try_finally
                    (bind (decode_in_module exports c h)
                          (fun decodedImage => fit_to_expected_size h decodedImage))
                    (bind (wasm_add_to_stack_pointer exports 16) (fun _ => ret tt)) s))
    = CallAddToStackPointer 16 :: events ++ CallAddToStackPointer (-16) :: history s.
Proof.
  intros R NN.
  destruct (grows_try_block c h s) as [events E].
  rewrite (wasm_add_to_stack_pointer_history (-16) s R) in E.
  assert (R1 : ready (snd (bind (decode_in_module exports c h)
                                (fun img => fit_to_expected_size h img) s))).
  { eapply (triple_bind (decode_in_module exports c h));
      [apply triple_decode_in_module | | exact R].
    intros img _. now apply triple_fit_to_expected_size. }
  unfold try_finally.
  destruct (bind (decode_in_module exports c h)
                 (fun img => fit_to_expected_size h img) s) as [r s1].
  cbn [snd] in E, R1.
  pose proof (wasm_add_to_stack_pointer_history 16 s1 R1) as F.
  change (JS.ToInt32 16) with 16 in F. change (JS.ToInt32 (-16)) with (-16) in E.
  exists events. rewrite <- E, <- F.
  unfold bind. destruct (wasm_add_to_stack_pointer exports 16 s1) as [[r16|e16] s2];
    reflexivity.
Qed.

(** X10: whenever the decoder gets as far as the module (it is instantiated,
    the header is valid, the payload is not empty), the first thing it adds
    to the history is the reservation of the stack slot and the last is its
    release, whether it returns or throws: [finally] always runs. *)
Theorem decodeASTCTexture_releases_stack
    (data : Uint8Array) (s : State Hidden) (h : Header) :
  ready s -> parseASTCHeader data = Ok h -> 16 < len data ->
  exists events,
    history (snd (decodeASTCTexture exports data s))
    = CallAddToStackPointer 16 :: events ++ CallAddToStackPointer (-16) :: history s.
Proof.
  intros R P L. rewrite (decodeASTCTexture_ready exports data s h R P L).
  apply try_block_history; [exact R|]. now apply (parsed_size_nonneg data).
Qed.

(** X11: the module is left alone exactly when one of the three checks in
    front of the [try] block fails: the history is unchanged if and only if
    the module is not instantiated, or the header does not parse, or there is
    no payload. *)
Theorem decodeASTCTexture_calls_module_iff (data : Uint8Array) (s : State Hidden) :
  history (snd (decodeASTCTexture exports data s)) = history s <->
  wasm s = None \/ (exists e, parseASTCHeader data = Throw e) \/ len data = 16.
Proof.
  split.
  - intros Hh. destruct (wasm s) as [inst|] eqn:E; [|now left]. right.
    destruct (parseASTCHeader data) as [h|e] eqn:P; [|left; eauto]. right.
    pose proof (parseASTCHeader_ok_length data h P) as L16.
    destruct (Z.eq_dec (len data) 16) as [L|L]; [exact L | exfalso].
    assert (R : ready s) by (unfold ready; congruence).
    rewrite (decodeASTCTexture_ready exports data s h R P ltac:(lia)) in Hh.
    destruct (try_block_history (subarray_from data 16) h s R
                (parsed_size_nonneg data h P)) as [events Ev].
    rewrite Hh in Ev. apply (f_equal (@List.length Event)) in Ev.
    cbn [List.length] in Ev. rewrite length_app in Ev. cbn [List.length] in Ev. lia.
  - intros [N | [[e P] | L]].
    + now rewrite (decodeASTCTexture_not_ready exports data s N).
    + destruct (decodeASTCTexture_parse_throws exports data s e P) as [e' D].
      now rewrite D.
    + destruct (parseASTCHeader data) as [h|e] eqn:P.
      * now rewrite (decodeASTCTexture_empty_payload exports data s h P L).
      * destruct (decodeASTCTexture_parse_throws exports data s e P) as [e' D].
        now rewrite D.
Qed.

(** *** What a step that returns has done *)

Lemma invoke_ok {A} (ev : Event) (f : Instance Hidden -> Outcome A * Instance Hidden)
    (s s' : State Hidden) (a : A) :
  invoke ev f s = (Ok a, s') ->
  history s' = ev :: history s /\ WASM_VECTOR_LEN s' = WASM_VECTOR_LEN s.
Proof.
  unfold invoke. destruct (wasm s) as [inst|]; [|discriminate].
  destruct (f inst) as [[r|code] inst']; [|discriminate].
  intros E. inversion E. now split.
Qed.

Lemma getUint8Memory0_ok (s s' : State Hidden) (mem : list byte) :
  getUint8Memory0 s = (Ok mem, s') ->
  history s' = history s /\ WASM_VECTOR_LEN s' = WASM_VECTOR_LEN s.
Proof.
  unfold getUint8Memory0. destruct (old_bytes _ _).
  - intros E. inversion E. now split.
  - destruct (wasm s); [|discriminate]. intros E. inversion E. now split.
Qed.

Lemma getInt32Memory0_ok (s s' : State Hidden) (mem : list byte) :
  getInt32Memory0 s = (Ok mem, s') ->
  history s' = history s /\ WASM_VECTOR_LEN s' = WASM_VECTOR_LEN s.
Proof.
  unfold getInt32Memory0. destruct (old_bytes _ _).
  - intros E. inversion E. now split.
  - destruct (wasm s); [|discriminate]. intros E. inversion E. now split.
Qed.

Lemma write_memory_ok (mem : list byte) (s s' : State Hidden) :
  write_memory mem s = (Ok tt, s') ->
  history s' = history s /\ WASM_VECTOR_LEN s' = WASM_VECTOR_LEN s.
Proof.
  unfold write_memory.
  destruct (cachedUint8Memory0 s); try destruct (old_bytes _ _);
    destruct (wasm s); try discriminate; intros E; inversion E; now split.
Qed.

Lemma wasm_add_to_stack_pointer_ok (delta r : Z) (s s' : State Hidden) :
  wasm_add_to_stack_pointer exports delta s = (Ok r, s') ->
  history s' = CallAddToStackPointer (JS.ToInt32 delta) :: history s /\
  WASM_VECTOR_LEN s' = WASM_VECTOR_LEN s.
Proof.
  unfold wasm_add_to_stack_pointer. intros E.
  apply bind_ok in E. destruct E as (a & s1 & E1 & E2).
  apply invoke_ok in E1. inversion E2. now subst.
Qed.

Lemma passArray8ToWasm0_ok (arg : Uint8Array) (ptr : Z) (s s' : State Hidden) :
  passArray8ToWasm0 arg (wasm_malloc exports) s = (Ok ptr, s') ->
  history s' = CallMalloc (JS.ToInt32 (len arg)) 1 :: history s /\
  WASM_VECTOR_LEN s' = len arg.
Proof.
  unfold passArray8ToWasm0, wasm_malloc. intros E.
  apply bind_ok in E. destruct E as (p & s1 & E1 & E).
  apply bind_ok in E1. destruct E1 as (p' & s0 & E0 & E1).
  apply invoke_ok in E0. destruct E0 as [H0 _]. inversion E1; subst s1; clear E1.
  rewrite Z.mul_1_r in H0. change (JS.ToInt32 1) with 1 in H0.
  apply bind_ok in E. destruct E as (bytes & s2 & G & E).
  apply getUint8Memory0_ok in G. destruct G as [H2 _].
  apply bind_ok in E. destruct E as (mem' & s3 & T & E).
  inversion T; subst s3; clear T.
  apply bind_ok in E. destruct E as ([] & s4 & W & E).
  apply write_memory_ok in W. destruct W as [H4 _].
  apply bind_ok in E. destruct E as ([] & s5 & V & E).
  inversion V; subst s5; clear V. inversion E; subst s'.
  cbn [history WASM_VECTOR_LEN]. split; [|reflexivity].
  now rewrite H4, H2, H0.
Qed.

(** A decode inside the module that returns has called the allocator, the
    decoder and the deallocator, in this order. *)
Lemma decode_in_module_ok
    (c : Uint8Array) (h : Header) (s s1 : State Hidden) (img : Uint8Array) :
  decode_in_module exports c h s = (Ok img, s1) ->
  exists retptr ptr freed size,
    history s1
    = CallFree freed size :: NewUint8Array (len img)
      :: CallAstcDecode retptr ptr (JS.ToInt32 (len c))
           (JS.ToInt32 (width h)) (JS.ToInt32 (height h))
           (JS.ToInt32 (blockWidth h)) (JS.ToInt32 (blockHeight h))
      :: CallMalloc (JS.ToInt32 (len c)) 1
      :: CallAddToStackPointer (-16) :: history s /\
    WASM_VECTOR_LEN s1 = len c.
Proof.
  unfold decode_in_module. intros E.
  apply bind_ok in E. destruct E as (returnPointer & s0 & E0 & E).
  apply wasm_add_to_stack_pointer_ok in E0. destruct E0 as [H0 V0].
  change (JS.ToInt32 (-16)) with (-16) in H0.
  apply bind_ok in E. destruct E as (dataPointer & s2 & E2 & E).
  apply passArray8ToWasm0_ok in E2. destruct E2 as [H2 V2].
  apply bind_ok in E. destruct E as (vector_len & s3 & E3 & E).
  inversion E3; subst vector_len s3; clear E3.
  apply bind_ok in E. destruct E as (u & s4 & E4 & E).
  apply invoke_ok in E4. destruct E4 as [H4 V4].
  apply bind_ok in E. destruct E as (mem32 & s5 & E5 & E).
  apply getInt32Memory0_ok in E5. destruct E5 as [H5 V5].
  apply bind_ok in E. destruct E as (mem32' & s6 & E6 & E).
  apply getInt32Memory0_ok in E6. destruct E6 as [H6 V6].
  apply bind_ok in E. destruct E as (view & s7 & E7 & E).
  unfold getArrayU8FromWasm0 in E7.
  apply bind_ok in E7. destruct E7 as (mem & s8 & E8 & E7).
  apply getUint8Memory0_ok in E8. destruct E8 as [H8 V8].
  inversion E7; subst s7; clear E7.
  apply bind_ok in E. destruct E as (u' & s9 & E9 & E).
  inversion E9; subst u' s9; clear E9.
  apply bind_ok in E. destruct E as (u'' & s10 & E10 & E).
  apply invoke_ok in E10. destruct E10 as [H10 V10].
  inversion E; subst s1.
  do 4 eexists. split.
  - rewrite H10. cbn [history]. rewrite H8, H6, H5, H4, H2, H0, V2. subst img.
    reflexivity.
  - rewrite V10. cbn [WASM_VECTOR_LEN]. now rewrite V8, V6, V5, V4.
Qed.

Lemma len_subarray_from_16 (data : Uint8Array) :
  16 <= len data -> len (subarray_from data 16) = len data - 16.
Proof.
  intros L. rewrite subarray_from_16 by assumption.
  unfold len in *. rewrite length_skipn. lia.
Qed.

(** A decode that returns went through the [try] block: the module's buffer
    was read, sized, and the stack slot released. *)
Lemma decodeASTCTexture_returns
    (data : Uint8Array) (s s' : State Hidden) (h : Header) (out : Uint8Array) :
  parseASTCHeader data = Ok h ->
  decodeASTCTexture exports data s = (Ok out, s') ->
  16 < len data /\ ready s /\
  exists img s1 s2,
    decode_in_module exports (subarray_from data 16) h s = (Ok img, s1) /\
    fit_to_expected_size h img s1 = (Ok out, s2) /\
    history s' = CallAddToStackPointer 16 :: history s2 /\
    WASM_VECTOR_LEN s' = WASM_VECTOR_LEN s2.
Proof.
  intros P D.
  destruct (wasm s) as [inst|] eqn:E.
  2:{ rewrite (decodeASTCTexture_not_ready exports data s E) in D. discriminate D. }
  assert (R : ready s) by (unfold ready; congruence).
  pose proof (parseASTCHeader_ok_length data h P) as L16.
  destruct (Z.eq_dec (len data) 16) as [L|L].
  { rewrite (decodeASTCTexture_empty_payload exports data s h P L) in D. discriminate D. }
  split; [lia|]. split; [exact R|].
  rewrite (decodeASTCTexture_ready exports data s h R P ltac:(lia)) in D.
  unfold try_finally in D.
  destruct (bind (decode_in_module exports (subarray_from data 16) h)
                 (fun img => fit_to_expected_size h img) s) as [r s2] eqn:B.
  destruct (bind (wasm_add_to_stack_pointer exports 16) (fun _ => ret tt) s2)
    as [[u|e] s3] eqn:F; [|discriminate D].
  inversion D; subst r s3; clear D.
  apply bind_ok in F. destruct F as (r16 & s4 & F & F').
  apply wasm_add_to_stack_pointer_ok in F. destruct F as [HF VF].
  change (JS.ToInt32 16) with 16 in HF. inversion F'; subst s4; clear F'.
  apply bind_ok in B. destruct B as (img & s1 & B1 & B2).
  exists img, s1, s2. auto.
Qed.

(** The two ways [fit_to_expected_size] returns. *)
Lemma fit_to_expected_size_ok
    (h : Header) (img out : Uint8Array) (s1 s2 : State Hidden) :
  0 <= width h * height h * 4 ->
  fit_to_expected_size h img s1 = (Ok out, s2) ->
  (len img = width h * height h * 4 /\ out = img /\ s2 = s1) \/
  (len img <> width h * height h * 4 /\
   out = pad_or_truncate (width h * height h * 4) img /\
   history s2 = NewUint8Array (width h * height h * 4) :: history s1 /\
   WASM_VECTOR_LEN s2 = WASM_VECTOR_LEN s1).
Proof.
  intros NN F. rewrite fit_to_expected_size_eq in F by assumption.
  destruct (len img =? width h * height h * 4) eqn:Q.
  - apply Z.eqb_eq in Q. inversion F. subst. left. auto.
  - apply Z.eqb_neq in Q.
    destruct (new_typed_array _ _); inversion F. subst. right.
    repeat split; auto.
Qed.

(** X12: a decode that returns has made exactly these calls, in this order:
    reserve the stack slot; allocate as many bytes as the payload has;
    [astcDecode] with the payload length and the header's width, height,
    block width and block height (no depth); free the result; release the
    stack slot. The result is the buffer [decode_in_module] read from the
    module, itself when it has [W*H*4] bytes, and else cut or zero-filled to
    that size in a new buffer. [WASM_VECTOR_LEN] is left at the payload
    length. *)
Theorem decodeASTCTexture_protocol
    (data : Uint8Array) (s s' : State Hidden) (h : Header) (out : Uint8Array) :
  parseASTCHeader data = Ok h ->
  decodeASTCTexture exports data s = (Ok out, s') ->
  exists retptr ptr freed size img s1 resize,
    decode_in_module exports (subarray_from data 16) h s = (Ok img, s1) /\
    history s'
    = CallAddToStackPointer 16 :: resize
      ++ CallFree freed size :: NewUint8Array (len img)
      :: CallAstcDecode retptr ptr (JS.ToInt32 (len data - 16))
           (width h) (height h) (blockWidth h) (blockHeight h)
      :: CallMalloc (JS.ToInt32 (len data - 16)) 1
      :: CallAddToStackPointer (-16) :: history s /\
    (resize = [] /\ out = img /\ len img = width h * height h * 4 \/
     resize = [NewUint8Array (width h * height h * 4)] /\
     out = pad_or_truncate (width h * height h * 4) img /\
     len img <> width h * height h * 4) /\
    WASM_VECTOR_LEN s' = len data - 16.
Proof.
  intros P D.
  destruct (decodeASTCTexture_returns data s s' h out P D)
    as (L & R & img & s1 & s2 & B1 & B2 & HF & VF).
  destruct (decode_in_module_ok _ _ _ _ _ B1) as (retptr & ptr & freed & size & H1 & V1).
  rewrite len_subarray_from_16 in H1, V1 by lia.
  destruct (parsed_int32 data h P) as (Iw & Ih & Ibw & Ibh).
  rewrite Iw, Ih, Ibw, Ibh in H1.
  exists retptr, ptr, freed, size, img, s1.
  destruct (fit_to_expected_size_ok h img out s1 s2 (parsed_size_nonneg data h P) B2)
    as [(Q & -> & ->) | (Q & -> & H2 & V2)].
  - exists []. split; [exact B1|]. rewrite HF, H1, VF, V1. cbn [app].
    split; [reflexivity|]. split; [left; auto | reflexivity].
  - exists [NewUint8Array (width h * height h * 4)]. split; [exact B1|].
    rewrite HF, H2, H1, VF, V2, V1. cbn [app].
    split; [reflexivity|]. split; [right; auto | reflexivity].
Qed.


End DecoderProtocol.

(** ** The canvas utilities *)

Lemma skipn_nth_cons (a : list byte) (k : nat) :
  (k < List.length a)%nat -> skipn k a = nth k a x00 :: skipn (S k) a.
Proof.
  revert k. induction a as [|x a IH]; intros [|k] L; cbn [List.length] in L; try lia.
  - reflexivity.
  - cbn [skipn nth]. rewrite IH by lia. reflexivity.
Qed.

Lemma store_middle (pre post : list byte) (old v : byte) (k : nat) :
  List.length pre = k -> store (pre ++ old :: post) k v = pre ++ v :: post.
Proof.
  intros <-. unfold store.
  replace (List.length pre <? List.length (pre ++ old :: post))%nat with true
    by (symmetry; apply Nat.ltb_lt; rewrite length_app; cbn; lia).
  rewrite firstn_app, Nat.sub_diag, firstn_all. cbn [firstn]. rewrite app_nil_r.
  rewrite skipn_app, skipn_all2 by lia.
  replace (S (List.length pre) - List.length pre)%nat with 1%nat by lia.
  reflexivity.
Qed.

(** A loop of stores over [from .. from + n - 1] inside the array replaces
    that stretch and nothing else. *)
Lemma fold_store_spec (value : nat -> byte) (a : list byte) (from n : nat) :
  (from + n <= List.length a)%nat ->
  fold_left (fun acc i => store acc i (value i)) (seq from n) a
  = firstn from a ++ map value (seq from n) ++ skipn (from + n) a.
Proof.
  induction n as [|n IH]; intros L.
  - cbn [seq fold_left map app]. now rewrite Nat.add_0_r, firstn_skipn.
  - rewrite seq_S, fold_left_app, IH by lia. cbn [fold_left].
    rewrite (skipn_nth_cons a (from + n)) by lia.
    rewrite app_assoc.
    rewrite store_middle
      by (rewrite length_app, length_map, length_seq, firstn_length_le; lia).
    rewrite map_app, <- !app_assoc. cbn [map app].
    now replace (from + S n)%nat with (S (from + n)) by lia.
Qed.

Lemma for_store_spec (value : nat -> byte) (a : list byte) (from to : nat) :
  (from <= to <= List.length a)%nat ->
  for_store from to value a
  = firstn from a ++ map value (seq from (to - from)) ++ skipn to a.
Proof.
  intros L. unfold for_store. rewrite fold_store_spec by lia.
  now replace (from + (to - from))%nat with to by lia.
Qed.

Lemma map_nth_seq (d : list byte) (c : nat) :
  (c <= List.length d)%nat -> map (fun i => nth i d x00) (seq 0 c) = firstn c d.
Proof.
  intros L. apply (nth_ext _ _ x00 x00).
  - rewrite length_map, length_seq, firstn_length_le; lia.
  - rewrite length_map, length_seq. intros i Hi.
    rewrite (nth_indep _ x00 (nth 0 d x00)) by (rewrite length_map, length_seq; lia).
    rewrite (map_nth (fun i => nth i d x00) (seq 0 c) 0%nat i), seq_nth by lia.
    rewrite nth_firstn.
    now replace (i <? c)%nat with true by (symmetry; apply Nat.ltb_lt; exact Hi).
Qed.

(** The two loops of [createValidImageData]. *)
Lemma corrected_bytes (d : list byte) (c n : nat) :
  (c <= List.length d)%nat -> (c <= n)%nat ->
  for_store c n fill_byte (for_store 0 c (fun i => nth i d x00) (repeat x00 n))
  = firstn c d ++ map fill_byte (seq c (n - c)).
Proof.
  intros Ld Ln.
  rewrite (for_store_spec _ (repeat x00 n) 0 c) by (rewrite repeat_length; lia).
  cbn [firstn app]. rewrite Nat.sub_0_r, map_nth_seq, skipn_repeat by assumption.
  assert (LF : List.length (firstn c d) = c) by (apply firstn_length_le; lia).
  rewrite for_store_spec by (rewrite length_app, LF, repeat_length; lia).
  rewrite firstn_app, LF, Nat.sub_diag, firstn_all2 by lia. cbn [firstn].
  rewrite skipn_all2 by (rewrite length_app, LF, repeat_length; lia).
  now rewrite !app_nil_r.
Qed.

Section CanvasFacts.

Context {ImageData Canvas : Type} (browser : Browser ImageData Canvas).

(** X13: given data of the wrong size, when [width * height * 4] is a
    length the engine allocates (not negative, at most 2^53 - 1, and room
    for it), [createValidImageData] hands the constructor a buffer of exactly
    that many bytes: the data as far as it goes and the buffer has room,
    then opaque black, 0 0 0 255 by the position in the buffer. *)
Theorem createValidImageData_corrects (decodedData : Uint8Array) (width height : Z) :
  len decodedData <> width * height * 4 ->
  0 <= width * height * 4 <= MAX_SAFE_INTEGER ->
  allocates browser (width * height * 4) = true ->
  exists properData,
    createValidImageData browser decodedData width height
    = match new_ImageData browser properData width height with
      | Some image => inr image
      | None => inl ImageDataRejected
      end /\
    len properData = width * height * 4 /\
    (forall i : nat, Z.of_nat i < Z.min (len decodedData) (width * height * 4) ->
       nth i properData x00 = nth i decodedData x00) /\
    (forall i : nat,
       Z.min (len decodedData) (width * height * 4) <= Z.of_nat i < width * height * 4 ->
       nth i properData x00 = if Z.of_nat i mod 4 =? 3 then xff else x00).
Proof.
  intros N [NN SF] A. unfold createValidImageData.
  replace (len decodedData =? width * height * 4) with false
    by (symmetry; now apply Z.eqb_neq).
  cbn [negb]. rewrite new_typed_array_allocated by (try split; assumption).
  unfold zeros, JS.min.
  pose proof (len_nonneg decodedData) as LD.
  set (n := width * height * 4) in *.
  set (c := Z.min (len decodedData) n).
  assert (Lc : (Z.to_nat c <= List.length decodedData)%nat) by (unfold c, len in *; lia).
  assert (Ln : (Z.to_nat c <= Z.to_nat n)%nat) by (unfold c; lia).
  rewrite (corrected_bytes decodedData _ _ Lc Ln).
  assert (LF : List.length (firstn (Z.to_nat c) decodedData) = Z.to_nat c)
    by now apply firstn_length_le.
  eexists. split; [reflexivity|]. split; [|split].
  - unfold len. rewrite length_app, LF, length_map, length_seq. lia.
  - intros i Hi. rewrite app_nth1 by lia. rewrite nth_firstn.
    now replace (i <? Z.to_nat c)%nat with true by (symmetry; apply Nat.ltb_lt; lia).
  - intros i Hi. rewrite app_nth2 by lia. rewrite LF.
    rewrite (nth_indep _ x00 (fill_byte 0)) by (rewrite length_map, length_seq; lia).
    rewrite (map_nth fill_byte), seq_nth by lia.
    replace (Z.to_nat c + (i - Z.to_nat c))%nat with i by lia. reflexivity.
Qed.

Context {Hidden : Type} (exports : Exports Hidden).

Lemma decoded_length
    (data : Uint8Array) (s s' : State Hidden) (h : Header) (out : Uint8Array) :
  parseASTCHeader data = Ok h ->
  decodeASTCTexture exports data s = (Ok out, s') ->
  len out = width h * height h * 4.
Proof.
  intros P D. destruct (wasm s) as [inst|] eqn:E.
  2:{ rewrite (decodeASTCTexture_not_ready exports data s E) in D. discriminate D. }
  assert (R : ready s) by (unfold ready; congruence).
  pose proof (parseASTCHeader_ok_length data h P) as L16.
  destruct (Z.eq_dec (len data) 16) as [L|L].
  { rewrite (decodeASTCTexture_empty_payload exports data s h P L) in D. discriminate D. }
  pose proof (decodeASTCTexture_outcome exports data s h R P ltac:(lia)) as O.
  now rewrite D in O.
Qed.

Lemma createValidImageData_exact (decodedData : Uint8Array) (width height : Z) :
  len decodedData = width * height * 4 ->
  createValidImageData browser decodedData width height
  = match new_ImageData browser decodedData width height with
    | Some image => inr image
    | None => inl ImageDataRejected
    end.
Proof.
  intros L. unfold createValidImageData.
  now replace (len decodedData =? width * height * 4) with true
    by (symmetry; now apply Z.eqb_eq).
Qed.

(** X14: what [decodeASTCTexture] returns needs no correction: with the
    width and height of the header, as in the README and in
    [decodeAndDraw], [createValidImageData] passes the decoded buffer to the
    image constructor as it is. *)
Theorem createValidImageData_after_decode
    (data : Uint8Array) (s s' : State Hidden) (h : Header) (out : Uint8Array) :
  parseASTCHeader data = Ok h ->
  decodeASTCTexture exports data s = (Ok out, s') ->
  createValidImageData browser out (width h) (height h)
  = match new_ImageData browser out (width h) (height h) with
    | Some image => inr image
    | None => inl ImageDataRejected
    end.
Proof.
  intros P D. apply createValidImageData_exact. now apply (decoded_length data s s').
Qed.

Lemma decode_returns (this : ASTCDecoder) (data : Uint8Array)
    (s s' : State Hidden) (out : Uint8Array) :
  decode exports this data s = (inr out, s') ->
  initialized this = true /\ decodeASTCTexture exports data s = (Ok out, s').
Proof.
  unfold decode. destruct (initialized this); cbn [negb]; [|discriminate].
  destruct (decodeASTCTexture exports data s) as [[o|e] s1]; [|discriminate].
  intros E. inversion E. now subst.
Qed.

Lemma decodeAndDraw_after_decode (this : ASTCDecoder) (data : Uint8Array)
    (canvas : Canvas) (s s' : State Hidden) (h : Header) (out : Uint8Array) :
  initialized this = true ->
  parseASTCHeader data = Ok h ->
  decodeASTCTexture exports data s = (Ok out, s') ->
  decodeAndDraw browser exports this data canvas s
  = let resized := set_height browser (height h) (set_width browser (width h) canvas) in
    match new_ImageData browser out (width h) (height h) with
    | Some image =>
        if getContext_2d browser canvas
        then (inr (fst (putImageData browser image 0 0 resized)),
              (s', snd (putImageData browser image 0 0 resized)))
        else (inr false, (s', resized))
    | None => (inr false, (s', resized))
    end.
Proof.
  intros I P T. unfold decodeAndDraw, decode. rewrite I, T, P. cbn [negb].
  unfold drawToCanvas.
  rewrite (createValidImageData_exact out (width h) (height h))
    by now apply (decoded_length data s s').
  cbv zeta. destruct (new_ImageData browser out (width h) (height h)); [|reflexivity].
  destruct (getContext_2d browser canvas); [|reflexivity].
  now destruct (putImageData browser _ 0 0 _).
Qed.

Lemma decoded_header (data : Uint8Array) (s s' : State Hidden) (out : Uint8Array) :
  decodeASTCTexture exports data s = (Ok out, s') ->
  exists h, parseASTCHeader data = Ok h.
Proof.
  intros T. destruct (parseASTCHeader data) as [h|e] eqn:P; [eauto|].
  destruct (decodeASTCTexture_parse_throws exports data s e P) as [e' T'].
  rewrite T' in T. discriminate T.
Qed.

(** X15: when [decode] returns, [decodeAndDraw] does not throw: the second
    parse of the header succeeds, the canvas takes the width and height of
    the header (also when drawing fails), and the image is built from the
    decoded bytes as they are. The result is [true] exactly when the image
    constructor accepts them, the canvas had a 2D context before it was
    resized, and [putImageData] returns. *)
Theorem decodeAndDraw_draws (this : ASTCDecoder) (data : Uint8Array)
    (canvas : Canvas) (s s' : State Hidden) (out : Uint8Array) :
  decode exports this data s = (inr out, s') ->
  exists h, parseASTCHeader data = Ok h /\
    decodeAndDraw browser exports this data canvas s
    = let resized := set_height browser (height h) (set_width browser (width h) canvas) in
      match new_ImageData browser out (width h) (height h) with
      | Some image =>
          if getContext_2d browser canvas
          then (inr (fst (putImageData browser image 0 0 resized)),
                (s', snd (putImageData browser image 0 0 resized)))
          else (inr false, (s', resized))
      | None => (inr false, (s', resized))
      end.
Proof.
  intros D. destruct (decode_returns this data s s' out D) as [I T].
  destruct (decoded_header data s s' out T) as [h P].
  exists h. split; [exact P|].
  now apply decodeAndDraw_after_decode.
Qed.

(** X16: [decodeAndDraw] throws exactly what [decode] throws, with the
    canvas untouched; a failure to draw is a [false], never an exception. *)
Theorem decodeAndDraw_throws_iff (this : ASTCDecoder) (data : Uint8Array)
    (canvas : Canvas) (s : State Hidden) (thrown : Thrown)
    (after : State Hidden * Canvas) :
  decodeAndDraw browser exports this data canvas s = (inl thrown, after) <->
  exists s', decode exports this data s = (inl thrown, s') /\ after = (s', canvas).
Proof.
  destruct (decode exports this data s) as [[t|out] s1] eqn:D.
  - unfold decodeAndDraw. rewrite D. split.
    + intros E. inversion E. now exists s1.
    + intros (s' & E & ->). inversion E. reflexivity.
  - destruct (decode_returns this data s s1 out D) as [I T].
    destruct (decoded_header data s s1 out T) as [h P].
    rewrite (decodeAndDraw_after_decode this data canvas s s1 h out I P T).
    cbv zeta. split.
    + destruct (new_ImageData browser out (width h) (height h));
        [destruct (getContext_2d browser canvas)|]; discriminate.
    + intros (s' & E & _). discriminate E.
Qed.

End CanvasFacts.

(** ** Through the [try] block *)

Section TryBlock.

Context {Hidden : Type} (exports : Exports Hidden).

Lemma decode_in_module_throws_ready
    (c : Uint8Array) (h : Header) (s s1 : State Hidden) (e : Error) :
  ready s -> decode_in_module exports c h s = (Throw e, s1) -> ready s1.
Proof.
  intros R D. pose proof (triple_decode_in_module exports c h s R) as [R1 _].
  now rewrite D in R1.
Qed.

(** X17: when the module hands back a buffer of exactly [W*H*4] bytes (and
    the stack slot is released without a trap), the decoder returns that
    buffer itself and allocates nothing more. *)
Theorem decodeASTCTexture_passes_through
    (data : Uint8Array) (s s1 : State Hidden) (h : Header) (img : Uint8Array) :
  parseASTCHeader data = Ok h ->
  16 < len data ->
  decode_in_module exports (subarray_from data 16) h s = (Ok img, s1) ->
  len img = width h * height h * 4 ->
  (forall inst, exists r inst',
      __wbindgen_add_to_stack_pointer exports 16 inst = (Returns r, inst')) ->
  exists s2,
    decodeASTCTexture exports data s = (Ok img, s2) /\
    history s2 = CallAddToStackPointer 16 :: history s1.
Proof.
  intros P L D N NT.
  destruct (decode_in_module_needs_instance exports _ _ _ _ _ D) as [R R1].
  pose proof (parsed_size_nonneg data h P) as NN.
  rewrite (decodeASTCTexture_ready exports data s h R P L).
  destruct (wasm s1) as [inst1|] eqn:E1; [|now elim R1].
  destruct (NT inst1) as (r & inst' & Er).
  unfold try_finally, bind at 1. rewrite D.
  rewrite fit_to_expected_size_eq by assumption.
  replace (len img =? width h * height h * 4) with true
    by (symmetry; now apply Z.eqb_eq).
  rewrite (restore_stack_returns exports _ inst1 inst' r) by assumption.
  eexists. split; reflexivity.
Qed.

(** X18: an exception in the [try] block (a trap in the module, a payload
    that does not fit) reaches the caller as it is once the stack slot is
    released: nothing else is called, so what was allocated for the payload
    stays allocated. *)
Theorem decodeASTCTexture_rethrows
    (data : Uint8Array) (s s1 : State Hidden) (h : Header) (e : Error) :
  ready s ->
  parseASTCHeader data = Ok h ->
  16 < len data ->
  decode_in_module exports (subarray_from data 16) h s = (Throw e, s1) ->
  (forall inst, exists r inst',
      __wbindgen_add_to_stack_pointer exports 16 inst = (Returns r, inst')) ->
  exists s2,
    decodeASTCTexture exports data s = (Throw e, s2) /\
    history s2 = CallAddToStackPointer 16 :: history s1.
Proof.
  intros R P L D NT.
  pose proof (decode_in_module_throws_ready _ _ _ _ _ R D) as R1.
  rewrite (decodeASTCTexture_ready exports data s h R P L).
  destruct (wasm s1) as [inst1|] eqn:E1; [|now elim R1].
  destruct (NT inst1) as (r & inst' & Er).
  unfold try_finally, bind at 1. rewrite D.
  rewrite (restore_stack_returns exports _ inst1 inst' r) by assumption.
  eexists. split; reflexivity.
Qed.

End TryBlock.

(** ** The further theorems at work *)


Lemma passArray8ToWasm0_stores_witness :
  exists mem',
    passArray8ToWasm0 Toy.block (wasm_malloc Toy.exports) Toy.started
    = (Ok 16,
       mkState (Some (mkInstance mem' tt)) ViewOfMemory NoView 16 []
               (can_allocate Toy.started) [CallMalloc 16 1]) /\
    len mem' = 64 /\
    window mem' (16, 16) = Toy.block /\
    forall i : nat, Z.of_nat i < 16 \/ 16 + 16 <= Z.of_nat i ->
      nth i mem' x00 = nth i (repeat x00 64) x00.
Proof.
  apply (passArray8ToWasm0_stores Toy.exports Toy.block Toy.started
           (mkInstance (repeat x00 64) tt) (mkInstance (repeat x00 64) tt) 16).
  - reflexivity.
  - reflexivity.
  - reflexivity.
  - vm_compute. discriminate.
Defined.

Lemma passArray8ToWasm0_overflows_witness :
  passArray8ToWasm0 (repeat x00 64) (wasm_malloc Toy.exports) Toy.started
  = (Throw RangeError,
     mkState (Some (mkInstance (repeat x00 64) tt)) ViewOfMemory NoView 0 []
             (can_allocate Toy.started) [CallMalloc 64 1]).
Proof.
  apply (passArray8ToWasm0_overflows Toy.exports (repeat x00 64) Toy.started
           (mkInstance (repeat x00 64) tt) (mkInstance (repeat x00 64) tt) 16).
  - reflexivity.
  - reflexivity.
  - reflexivity.
  - vm_compute. reflexivity.
Defined.

Lemma passArray8ToWasm0_stale_view_witness :
  exists old',
    passArray8ToWasm0 Toy.block (wasm_malloc Toy.exports) Toy.restarted
    = (Ok 16,
       mkState (Some (mkInstance (repeat x00 64) tt)) (ViewOfOld 0) NoView 16
               (replace_buffer [repeat xaa 64] 0 old') (can_allocate Toy.restarted)
               [CallMalloc 16 1]) /\
    window old' (16, 16) = Toy.block.
Proof.
  apply (passArray8ToWasm0_stale_view Toy.exports Toy.block Toy.restarted
           (mkInstance (repeat x00 64) tt) (mkInstance (repeat x00 64) tt) 16
           0%nat (repeat xaa 64)).
  - reflexivity.
  - reflexivity.
  - reflexivity.
  - discriminate.
  - reflexivity.
  - vm_compute. discriminate.
Defined.

Lemma getArrayU8FromWasm0_inside_witness :
  getArrayU8FromWasm0 (Some 32) (Some 4) Toy.started
  = (Ok [x00; x00; x00; x00],
     mkState (wasm Toy.started) ViewOfMemory NoView 0 [] (can_allocate Toy.started) []) /\
  len [x00; x00; x00; x00] = 4.
Proof.
  apply (getArrayU8FromWasm0_inside 32 4 Toy.started (mkInstance (repeat x00 64) tt)).
  - reflexivity.
  - reflexivity.
  - lia.
  - lia.
  - vm_compute. discriminate.
  - lia.
Defined.

Lemma getArrayU8FromWasm0_clamped_witness :
  exists view s',
    getArrayU8FromWasm0 (Some 60) (Some 100) Toy.started = (Ok view, s') /\
    wasm s' = wasm Toy.started /\ history s' = history Toy.started /\
    (forall n, Some 100 = Some n -> 0 <= n -> len view <= n) /\
    (Some 100 = None -> view = []) /\
    (old_bytes (cachedUint8Memory0 Toy.started) (old_buffers Toy.started) = None ->
     len view <= 64).
Proof.
  apply (getArrayU8FromWasm0_clamped (Some 60) (Some 100) Toy.started
           (mkInstance (repeat x00 64) tt)).
  reflexivity.
Defined.

Lemma passArray8ToWasm0_getArrayU8FromWasm0_witness :
  getArrayU8FromWasm0 (Some 16)
    (Some (WASM_VECTOR_LEN
             (snd (passArray8ToWasm0 Toy.block (wasm_malloc Toy.exports) Toy.restarted))))
    (snd (passArray8ToWasm0 Toy.block (wasm_malloc Toy.exports) Toy.restarted))
  = (Ok Toy.block,
     snd (passArray8ToWasm0 Toy.block (wasm_malloc Toy.exports) Toy.restarted)).
Proof.
  apply (passArray8ToWasm0_getArrayU8FromWasm0 Toy.exports Toy.block Toy.restarted).
  vm_compute. reflexivity.
Defined.

Lemma decodeASTCTexture_releases_stack_witness :
  exists events,
    history (snd (decodeASTCTexture Toy.faulty (Toy.header_8x8 ++ Toy.block) Toy.started))
    = CallAddToStackPointer 16 :: events ++ CallAddToStackPointer (-16) :: [].
Proof.
  apply (decodeASTCTexture_releases_stack Toy.faulty (Toy.header_8x8 ++ Toy.block)
           Toy.started (mkHeader "4x4" 4 4 1 "8x8" 8 8 1 true 16)).
  - vm_compute. discriminate.
  - vm_compute. reflexivity.
  - vm_compute. reflexivity.
Defined.

Lemma decodeASTCTexture_protocol_witness :
  exists retptr ptr freed size img s1 resize,
    decode_in_module Toy.exports (subarray_from (Toy.header_8x8 ++ Toy.block) 16)
      (mkHeader "4x4" 4 4 1 "8x8" 8 8 1 true 16) Toy.started = (Ok img, s1) /\
    history (snd (decodeASTCTexture Toy.exports (Toy.header_8x8 ++ Toy.block) Toy.started))
    = CallAddToStackPointer 16 :: resize
      ++ CallFree freed size :: NewUint8Array (len img)
      :: CallAstcDecode retptr ptr (JS.ToInt32 (32 - 16)) 8 8 4 4
      :: CallMalloc (JS.ToInt32 (32 - 16)) 1
      :: CallAddToStackPointer (-16) :: [] /\
    (resize = [] /\ [xff; xff; xff; xff] ++ repeat x00 252 = img /\ len img = 8 * 8 * 4 \/
     resize = [NewUint8Array (8 * 8 * 4)] /\
     [xff; xff; xff; xff] ++ repeat x00 252 = pad_or_truncate (8 * 8 * 4) img /\
     len img <> 8 * 8 * 4) /\
    WASM_VECTOR_LEN
      (snd (decodeASTCTexture Toy.exports (Toy.header_8x8 ++ Toy.block) Toy.started))
    = 32 - 16.
Proof.
  apply (decodeASTCTexture_protocol Toy.exports (Toy.header_8x8 ++ Toy.block) Toy.started
           (snd (decodeASTCTexture Toy.exports (Toy.header_8x8 ++ Toy.block) Toy.started))
           (mkHeader "4x4" 4 4 1 "8x8" 8 8 1 true 16)
           ([xff; xff; xff; xff] ++ repeat x00 252)).
  - vm_compute. reflexivity.
  - vm_compute. reflexivity.
Defined.

Lemma createValidImageData_corrects_witness :
  exists properData,
    createValidImageData ToyBrowser.browser [x01; x02; x03; x04; x05] 1 2
    = match new_ImageData ToyBrowser.browser properData 1 2 with
      | Some image => inr image
      | None => inl ImageDataRejected
      end /\
    len properData = 1 * 2 * 4 /\
    (forall i : nat, Z.of_nat i < Z.min (len [x01; x02; x03; x04; x05]) (1 * 2 * 4) ->
       nth i properData x00 = nth i [x01; x02; x03; x04; x05] x00) /\
    (forall i : nat,
       Z.min (len [x01; x02; x03; x04; x05]) (1 * 2 * 4) <= Z.of_nat i < 1 * 2 * 4 ->
       nth i properData x00 = if Z.of_nat i mod 4 =? 3 then xff else x00).
Proof.
  apply (createValidImageData_corrects ToyBrowser.browser [x01; x02; x03; x04; x05] 1 2).
  - vm_compute. discriminate.
  - unfold MAX_SAFE_INTEGER. lia.
  - reflexivity.
Defined.

Lemma createValidImageData_after_decode_witness :
  createValidImageData ToyBrowser.browser ([xff; xff; xff; xff] ++ repeat x00 252) 8 8
  = match new_ImageData ToyBrowser.browser ([xff; xff; xff; xff] ++ repeat x00 252) 8 8 with
    | Some image => inr image
    | None => inl ImageDataRejected
    end.
Proof.
  apply (createValidImageData_after_decode ToyBrowser.browser Toy.exports
           (Toy.header_8x8 ++ Toy.block) Toy.started
           (snd (decodeASTCTexture Toy.exports (Toy.header_8x8 ++ Toy.block) Toy.started))
           (mkHeader "4x4" 4 4 1 "8x8" 8 8 1 true 16)
           ([xff; xff; xff; xff] ++ repeat x00 252)).
  - vm_compute. reflexivity.
  - vm_compute. reflexivity.
Defined.

Lemma decodeAndDraw_draws_witness :
  exists h, parseASTCHeader (Toy.header_8x8 ++ Toy.block) = Ok h /\
    decodeAndDraw ToyBrowser.browser Toy.exports (mkASTCDecoder None true)
      (Toy.header_8x8 ++ Toy.block) ToyBrowser.blank Toy.started
    = let resized :=
        set_height ToyBrowser.browser (height h)
          (set_width ToyBrowser.browser (width h) ToyBrowser.blank) in
      let s' :=
        snd (decodeASTCTexture Toy.exports (Toy.header_8x8 ++ Toy.block) Toy.started) in
      match new_ImageData ToyBrowser.browser ([xff; xff; xff; xff] ++ repeat x00 252)
              (width h) (height h) with
      | Some image =>
          if getContext_2d ToyBrowser.browser ToyBrowser.blank
          then (inr (fst (putImageData ToyBrowser.browser image 0 0 resized)),
                (s', snd (putImageData ToyBrowser.browser image 0 0 resized)))
          else (inr false, (s', resized))
      | None => (inr false, (s', resized))
      end.
Proof.
  apply (decodeAndDraw_draws ToyBrowser.browser Toy.exports (mkASTCDecoder None true)
           (Toy.header_8x8 ++ Toy.block) ToyBrowser.blank Toy.started
           (snd (decodeASTCTexture Toy.exports (Toy.header_8x8 ++ Toy.block) Toy.started))
           ([xff; xff; xff; xff] ++ repeat x00 252)).
  vm_compute. reflexivity.
Defined.

Lemma decodeASTCTexture_passes_through_witness :
  exists s2,
    decodeASTCTexture Toy.exports (Toy.header_1x1x2 ++ Toy.block) Toy.started
    = (Ok [xff; xff; xff; xff], s2) /\
    history s2
    = CallAddToStackPointer 16
      :: history (snd (decode_in_module Toy.exports
                         (subarray_from (Toy.header_1x1x2 ++ Toy.block) 16)
                         (mkHeader "4x4" 4 4 1 "1x1" 1 1 2 true 16) Toy.started)).
Proof.
  apply (decodeASTCTexture_passes_through Toy.exports
           (Toy.header_1x1x2 ++ Toy.block) Toy.started
           (snd (decode_in_module Toy.exports
                   (subarray_from (Toy.header_1x1x2 ++ Toy.block) 16)
                   (mkHeader "4x4" 4 4 1 "1x1" 1 1 2 true 16) Toy.started))
           (mkHeader "4x4" 4 4 1 "1x1" 1 1 2 true 16)
           [xff; xff; xff; xff]).
  - vm_compute. reflexivity.
  - vm_compute. reflexivity.
  - vm_compute. reflexivity.
  - vm_compute. reflexivity.
  - intros inst. exists 0, inst. reflexivity.
Defined.

Lemma decodeASTCTexture_rethrows_witness :
  exists s2,
    decodeASTCTexture Toy.faulty (Toy.header_8x8 ++ Toy.block) Toy.started
    = (Throw (WasmTrap 1), s2) /\
    history s2
    = CallAddToStackPointer 16
      :: history (snd (decode_in_module Toy.faulty
                         (subarray_from (Toy.header_8x8 ++ Toy.block) 16)
                         (mkHeader "4x4" 4 4 1 "8x8" 8 8 1 true 16) Toy.started)).
Proof.
  apply (decodeASTCTexture_rethrows Toy.faulty
           (Toy.header_8x8 ++ Toy.block) Toy.started
           (snd (decode_in_module Toy.faulty
                   (subarray_from (Toy.header_8x8 ++ Toy.block) 16)
                   (mkHeader "4x4" 4 4 1 "8x8" 8 8 1 true 16) Toy.started))
           (mkHeader "4x4" 4 4 1 "8x8" 8 8 1 true 16)
           (WasmTrap 1)).
  - vm_compute. discriminate.
  - vm_compute. reflexivity.
  - vm_compute. reflexivity.
  - vm_compute. reflexivity.
  - intros inst. exists 0, inst. reflexivity.
Defined.
